(** * InfinitePageCrawler: a shallow embedding of [eastmoney_crawler.py]

    The development follows the class [InfinitePageCrawler]:
    - the URL construction at the head of the [crawl] loop
      ([str.__contains__], [str.format], [str.replace]);
    - [fetch_page], the recursive fetch with exponential backoff;
    - the body of [crawl]'s [while True] loop, its two [except] handlers
      and the final [save_data] call;
    - the default [parse_page] and [has_next_page], on the answers of
      the document they query, and the file name built by [save_data].

    Python integers are unbounded and are modelled by [Z]; [%] and [//]
    are floor operations and agree with [Z.modulo] and [Z.div] for a
    non-zero divisor.  Python strings are modelled by [string]; text
    outside ASCII stands for its UTF-8 encoding, on which searching for
    and replacing the ASCII tokens used by the crawler agree with the
    same operations on code points.  The collaborators the crawler calls
    (the HTTP session, the parser, [has_next_page], the file system,
    the random delay) are modelled by the outcome of each call, given
    as input to the loop. *)

From Stdlib Require Import ZArith List String Ascii Bool Lia.
From Stdlib Require Import DecimalString.
From Stdlib Require Import DecimalZ DecimalPos.
From Equations Require Import Equations.
Import ListNotations.

Local Open Scope string_scope.
Local Open Scope Z_scope.

(** ** Python strings *)

Section PyStr.

(** [str(n)] for an [int]. *)
Definition str (n : Z) : string := NilZero.string_of_int (Z.to_int n).

(** [s.startswith(p)]. *)
Fixpoint startswith (p s : string) : bool :=
  match p, s with
  | EmptyString, _ => true
  | String _ _, EmptyString => false
  | String a p', String b s' => Ascii.eqb a b && startswith p' s'
  end.

(** [sub in s]. *)
Fixpoint contains (sub s : string) : bool :=
  startswith sub s ||
  match s with
  | EmptyString => false
  | String _ s' => contains sub s'
  end.

(** [c in s] for a single character. *)
Fixpoint has_char (c : ascii) (s : string) : bool :=
  match s with
  | EmptyString => false
  | String b s' => Ascii.eqb c b || has_char c s'
  end.

(** [s.replace(old, new)] for a non-empty [old]: the occurrences of [old]
    are found from left to right and do not overlap.  [skip] counts the
    characters of a match that remain to be dropped. *)
Fixpoint replace_from (old new : string) (skip : nat) (s : string) : string :=
  match s with
  | EmptyString => EmptyString
  | String c s' =>
      match skip with
      | S k => replace_from old new k s'
      | O =>
          if startswith old s
          then new ++ replace_from old new (String.length old - 1) s'
          else String c (replace_from old new O s')
      end
  end.

Definition replace (old new s : string) : string := replace_from old new O s.

(** Outcome of [template.format(page=n)].  The embedding covers literal
    text, the escapes [{{] and [}}], and replacement fields that are a
    bare name; a field with a conversion ([!]), a format specification
    ([:]), an attribute ([.]) or an index ([[]) is outside it. *)
Inductive format_result : Type :=
| Formatted (s : string)
| FormatRaises            (* ValueError, KeyError or IndexError *)
| FormatOther.            (* a field outside the embedded fragment *)

Definition format_cons (c : ascii) (r : format_result) : format_result :=
  match r with
  | Formatted s => Formatted (String c s)
  | other => other
  end.

Definition format_app (p : string) (r : format_result) : format_result :=
  match r with
  | Formatted s => Formatted (p ++ s)
  | other => other
  end.

(** Scanner state: in literal text, or inside a replacement field whose
    name read so far is [name]. *)
Inductive format_mode : Type :=
| InText
| InField (name : string).

Definition field_special (c : ascii) : bool :=
  Ascii.eqb c "!" || Ascii.eqb c ":" || Ascii.eqb c "." || Ascii.eqb c "[".

(** [template.format(page=n)]: the only argument is the keyword [page],
    so every other field name raises (KeyError for a name, IndexError
    for an empty or numeric one), and so does an unmatched brace. *)
Fixpoint format_from (n : Z) (m : format_mode) (s : string) : format_result :=
  match m, s with
  | InText, EmptyString => Formatted EmptyString
  | InText, String c rest =>
      if Ascii.eqb c "{" then
        match rest with
        | EmptyString => FormatRaises
        | String d rest' =>
            if Ascii.eqb d "{" then format_cons "{" (format_from n InText rest')
            else format_from n (InField EmptyString) rest
        end
      else if Ascii.eqb c "}" then
        match rest with
        | EmptyString => FormatRaises
        | String d rest' =>
            if Ascii.eqb d "}" then format_cons "}" (format_from n InText rest')
            else FormatRaises
        end
      else format_cons c (format_from n InText rest)
  | InField _, EmptyString => FormatRaises
  | InField name, String c rest =>
      if Ascii.eqb c "}" then
        if String.eqb name "page"
        then format_app (str n) (format_from n InText rest)
        else FormatRaises
      else if Ascii.eqb c "{" then FormatRaises
      else if field_special c then FormatOther
      else format_from n (InField (name ++ String c EmptyString)) rest
  end.

Definition format (template : string) (page : Z) : format_result :=
  format_from page InText template.

End PyStr.

(** ** Exceptions, collaborator outcomes and observable events *)

(** The two handlers of the loop distinguish [KeyboardInterrupt] from
    everything caught by [except Exception]. *)
Inductive exc : Type :=
| KeyboardInterrupt
| OtherException.

Inductive result (A : Type) : Type :=
| Returns (a : A)
| Raises (e : exc).
Arguments Returns {A} a.
Arguments Raises {A} e.

(** Outcome of [self.session.get(url, timeout=10)] followed by
    [response.raise_for_status()] and [response.text]. *)
Inductive get_outcome : Type :=
| GetText (text : string)
| GetRequestException          (* requests.exceptions.RequestException *)
| GetRaises (e : exc).         (* not caught inside fetch_page *)

(** The dictionaries of [parse_page]: an absent key is [None]. *)
Definition item : Type := (string * string)%type.

Record page_data : Type := mk_data {
  articles : option (list item);
  links : option (list item);
  page_size : Z
}.

(** One element of [all_data]: [{'page': .., 'url': .., 'data': ..}]. *)
Record entry : Type := mk_entry {
  page : Z;
  url : string;
  data : page_data
}.

Inductive event : Type :=
| EvGet (u : string) (retry_count : Z)      (* session.get *)
| EvLogRetry (u : string) (attempt : Z)     (* logger.warning, retry number *)
| EvSleep (seconds : Z)                     (* time.sleep(2 ** retry_count) *)
| EvLogGiveUp (u : string)                  (* logger.error, retries exhausted *)
| EvParse (html : string)                   (* BeautifulSoup and parse_page *)
| EvSave (label : string) (pages : list entry)  (* save_data *)
| EvHasNext (page_num : Z)                  (* has_next_page *)
| EvDelay.                                  (* random_delay *)

(** ** [fetch_page] *)

(** [2 ** retry_count], the argument of [time.sleep]. *)
Definition backoff (retry_count : Z) : Z := 2 ^ retry_count.

Section FetchPage.

Variable max_retries : Z.
(** Outcome of the request issued by the call with this [retry_count]. *)
Variable get : Z -> get_outcome.
Variable u : string.

(** <<
    try:
        response = self.session.get(url, timeout=10)
        response.raise_for_status()
        return response.text
    except requests.exceptions.RequestException as e:
        if retry_count < self.max_retries:
            logger.warning(...)
            time.sleep(2 ** retry_count)
            return self.fetch_page(url, retry_count + 1)
        else:
            logger.error(...)
            return None
    >>
    The result is the returned value (or the exception that leaves the
    call) with the events of the call in order. *)
Equations? fetch_page (retry_count : Z) : result (option string) * list event
  by wf (Z.to_nat (max_retries - retry_count)) lt :=
fetch_page retry_count with get retry_count := {
  | GetText text => (Returns (Some text), [EvGet u retry_count]);
  | GetRaises e => (Raises e, [EvGet u retry_count]);
  | GetRequestException with Z_lt_dec retry_count max_retries := {
      | left _ =>
          let r := fetch_page (retry_count + 1) in
          (fst r,
           EvGet u retry_count :: EvLogRetry u (retry_count + 1)
             :: EvSleep (backoff retry_count) :: snd r);
      | right _ =>
          (Returns None, [EvGet u retry_count; EvLogGiveUp u]) } }.
Proof. lia. Qed.

End FetchPage.

(** ** The crawler object and the state of [crawl] *)

(** [self.stats], without the two timestamps. *)
Record stats_t : Type := mk_stats {
  pages_crawled : Z;
  total_data : Z;
  errors : Z
}.

(** The attributes of [self] read by [crawl].  [format_other] stands for
    [base_url.format(page=n)] on a template whose fields leave the
    embedded fragment of [str.format]; it is not consulted otherwise. *)
Record crawler : Type := mk_crawler {
  base_url : string;
  max_retries : Z;
  format_other : Z -> result string
}.

(** The local variables of [crawl], [self.stats], and the calls made so
    far to the collaborators. *)
Record loop_state : Type := mk_state {
  stats : stats_t;
  page_num : Z;
  empty_pages_count : Z;
  all_data : list entry;
  trace : list event
}.

(** Why the loop was left; [RUNNING] while it has not been. *)
Inductive status : Type :=
| RUNNING
| TERMINATED_NO_CONTENT      (* break after empty_pages_count >= max_empty_pages *)
| TERMINATED_LAST_PAGE       (* break after has_next_page returned false *)
| TERMINATED_SAFETY_LIMIT    (* break after page_num > 10000000 *)
| TERMINATED_INTERRUPTED.    (* break in except KeyboardInterrupt *)

(** How control leaves the [try] block before its end. *)
Inductive control : Type :=
| Continue
| Break (why : status)
| Raised (e : exc).

(** What the collaborators answer during one iteration.  Each field is
    consulted only if the iteration makes the call. *)
Record page_io : Type := mk_io {
  io_get : Z -> get_outcome;        (* session.get, by retry_count *)
  io_parse : result page_data;      (* BeautifulSoup(html) and parse_page(html) *)
  io_save : result unit;            (* save_data *)
  io_has_next : result bool;        (* has_next_page(soup, page_num) *)
  io_delay : result unit            (* random_delay *)
}.

(** ** A state monad with early exit for the [try] block *)

Module Loop.

Inductive outcome (A : Type) : Type :=
| Val (a : A)
| Exit (k : control).
Arguments Val {A} a.
Arguments Exit {A} k.

Definition M (A : Type) : Type := loop_state -> loop_state * outcome A.

Definition ret {A} (a : A) : M A := fun s => (s, Val a).

Definition bind {A B} (m : M A) (f : A -> M B) : M B :=
  fun s =>
    match m s with
    | (s', Val a) => f a s'
    | (s', Exit k) => (s', Exit k)
    end.

Definition exit {A} (k : control) : M A := fun s => (s, Exit k).

Definition read {A} (f : loop_state -> A) : M A := fun s => (s, Val (f s)).

Definition update (f : loop_state -> loop_state) : M unit :=
  fun s => (f s, Val tt).

(** The result of a call: its value, or the exception it raised. *)
Definition call {A} (r : result A) : M A :=
  match r with
  | Returns a => ret a
  | Raises e => exit (Raised e)
  end.

Definition when (b : bool) (m : M unit) : M unit :=
  if b then m else ret tt.

End Loop.

Import Loop.

Declare Scope loop_scope.
Delimit Scope loop_scope with loop.
Notation "x <- m ;; k" := (bind m (fun x => k))
  (at level 61, m at next level, right associativity) : loop_scope.
Notation "m ;; k" := (bind m (fun _ => k))
  (at level 61, right associativity) : loop_scope.

(** Assignments to the locals and to [self.stats]. *)
Definition set_page_num (n : Z) (s : loop_state) : loop_state :=
  mk_state (stats s) n (empty_pages_count s) (all_data s) (trace s).

Definition set_empty_pages_count (n : Z) (s : loop_state) : loop_state :=
  mk_state (stats s) (page_num s) n (all_data s) (trace s).

Definition set_all_data (l : list entry) (s : loop_state) : loop_state :=
  mk_state (stats s) (page_num s) (empty_pages_count s) l (trace s).

Definition set_stats (st : stats_t) (s : loop_state) : loop_state :=
  mk_state st (page_num s) (empty_pages_count s) (all_data s) (trace s).

Definition emit (evs : list event) (s : loop_state) : loop_state :=
  mk_state (stats s) (page_num s) (empty_pages_count s) (all_data s)
           (trace s ++ evs)%list.

Definition incr_pages_crawled (st : stats_t) : stats_t :=
  mk_stats (pages_crawled st + 1) (total_data st) (errors st).

Definition add_total_data (n : Z) (st : stats_t) : stats_t :=
  mk_stats (pages_crawled st) (total_data st + n) (errors st).

Definition incr_errors (st : stats_t) : stats_t :=
  mk_stats (pages_crawled st) (total_data st) (errors st + 1).

(** ** Python values used by the loop *)

(** [not html] for the value returned by [fetch_page]: [None] and the
    empty string are both false. *)
Definition not_html (html : option string) : bool :=
  match html with
  | None => true
  | Some EmptyString => true
  | Some (String _ _) => false
  end.

Definition is_nil {A} (l : list A) : bool :=
  match l with
  | [] => true
  | _ :: _ => false
  end.

(** [d[key]]: KeyError when the key is absent. *)
Definition getitem {A} (v : option A) : result A :=
  match v with
  | Some a => Returns a
  | None => Raises OtherException
  end.

(** [len(l)]. *)
Definition len {A} (l : list A) : Z := Z.of_nat (List.length l).

(** [l[i:]]: a negative [i] counts from the end, and both ends are
    clamped to the list. *)
Definition slice_from {A} (i : Z) (l : list A) : list A :=
  skipn (Z.to_nat (if i <? 0 then Z.max (len l + i) 0 else Z.min i (len l))) l.

(** [a % b] and [a // b]: ZeroDivisionError for [b = 0]. *)
Definition py_mod (a b : Z) : result Z :=
  if b =? 0 then Raises OtherException else Returns (a mod b).

Definition py_floordiv (a b : Z) : result Z :=
  if b =? 0 then Raises OtherException else Returns (a / b).

(** ** URL construction (head of the [crawl] loop) *)

(** <<
    if '{page}' in self.base_url:
        url = self.base_url.format(page=page_num)
    elif '?page=' in self.base_url:
        url = self.base_url.replace('page=1', f'page={page_num}')
    else:
        url = f"{self.base_url}?page={page_num}"
    >> *)
Definition build_url (c : crawler) (n : Z) : result string :=
  if contains "{page}" (base_url c) then
    match format (base_url c) n with
    | Formatted s => Returns s
    | FormatRaises => Raises OtherException
    | FormatOther => format_other c n
    end
  else if contains "?page=" (base_url c)
       then Returns (replace "page=1" ("page=" ++ str n) (base_url c))
       else Returns (base_url c ++ "?page=" ++ str n).

(** ** [crawl] *)

Section Crawl.

Variable self : crawler.
Variables max_empty_pages save_interval : Z.

Local Open Scope loop_scope.

(** <<
    empty_pages_count += 1
    if empty_pages_count >= max_empty_pages:
        break
    >> *)
Definition count_empty_page : M unit :=
  n <- read empty_pages_count ;;
  update (set_empty_pages_count (n + 1)) ;;
  n <- read empty_pages_count ;;
  when (n >=? max_empty_pages) (exit (Break TERMINATED_NO_CONTENT)).

(** <<
    if page_num % save_interval == 0:
        self.save_data({'pages': all_data[-save_interval:]},
                       f"batch_{page_num//save_interval}")
    >> *)
Definition periodic_save (io : page_io) : M unit :=
  n <- read page_num ;;
  r <- call (py_mod n save_interval) ;;
  when (r =? 0)
    (saved <- read all_data ;;
     q <- call (py_floordiv n save_interval) ;;
     update (emit [EvSave ("batch_" ++ str q)
                          (slice_from (- save_interval) saved)]) ;;
     call (io_save io)).

(** The [else] branch of the record check. *)
Definition record_page (io : page_io) (u : string) (d : page_data) : M unit :=
  update (set_empty_pages_count 0) ;;
  st <- read stats ;;
  update (set_stats (incr_pages_crawled st)) ;;
  a <- call (getitem (articles d)) ;;
  l <- call (getitem (links d)) ;;
  st <- read stats ;;
  update (set_stats (add_total_data (len a + len l) st)) ;;
  n <- read page_num ;;
  saved <- read all_data ;;
  update (set_all_data (saved ++ [mk_entry n u d])%list) ;;
  periodic_save io.

(** [not data['articles'] and not data['links']]: [and] does not
    evaluate its second operand when the first is false. *)
Definition no_records (d : page_data) : M bool :=
  a <- call (getitem (articles d)) ;;
  if is_nil a
  then l <- call (getitem (links d)) ;; ret (is_nil l)
  else ret false.

(** The [try] block of one iteration of [while True]. *)
Definition crawl_body (io : page_io) : M unit :=
  n <- read page_num ;;
  u <- call (build_url self n) ;;
  let fetched := fetch_page (max_retries self) (io_get io) u 0 in
  update (emit (snd fetched)) ;;
  html <- call (fst fetched) ;;
  when (not_html html)
    (count_empty_page ;;
     update (set_page_num (n + 1)) ;;
     exit Continue) ;;
  let text := match html with Some t => t | None => EmptyString end in
  update (emit [EvParse text]) ;;
  d <- call (io_parse io) ;;
  empty <- no_records d ;;
  (if empty then count_empty_page else record_page io u d) ;;
  update (emit [EvHasNext n]) ;;
  more <- call (io_has_next io) ;;
  when (negb more) (exit (Break TERMINATED_LAST_PAGE)) ;;
  update (emit [EvDelay]) ;;
  call (io_delay io) ;;
  update (set_page_num (n + 1)) ;;
  n' <- read page_num ;;
  when (n' >? 10000000) (exit (Break TERMINATED_SAFETY_LIMIT)).

(** One iteration with the two handlers:
    <<
    except KeyboardInterrupt:
        break
    except Exception as e:
        self.stats['errors'] += 1
        page_num += 1
    >> *)
Definition crawl_step (io : page_io) (s : loop_state) : loop_state * status :=
  match crawl_body io s with
  | (s', Val _) => (s', RUNNING)
  | (s', Exit Continue) => (s', RUNNING)
  | (s', Exit (Break why)) => (s', why)
  | (s', Exit (Raised KeyboardInterrupt)) => (s', TERMINATED_INTERRUPTED)
  | (s', Exit (Raised OtherException)) =>
      (set_page_num (page_num s' + 1) (set_stats (incr_errors (stats s')) s'),
       RUNNING)
  end.

(** [while True] over the answers of the collaborators, one element
    per iteration; [RUNNING] is returned when the answers run out
    before the loop is left. *)
Fixpoint crawl_loop (ios : list page_io) (s : loop_state) : loop_state * status :=
  match ios with
  | [] => (s, RUNNING)
  | io :: rest =>
      match crawl_step io s with
      | (s', RUNNING) => crawl_loop rest s'
      | stopped => stopped
      end
  end.

(** The locals at the head of [crawl]. *)
Definition initial_state (st : stats_t) (start_page : Z) : loop_state :=
  mk_state st start_page 0 [] [].

(** <<
    if all_data:
        self.save_data({'all_data': all_data}, 'final')
    >> *)
Definition final_save (s : loop_state) : loop_state :=
  if is_nil (all_data s) then s else emit [EvSave "final" (all_data s)] s.

(** [crawl(start_page, max_empty_pages, save_interval)] on a crawler
    whose statistics are [st]; [None] when the loop is still running
    after the answers given. *)
Definition crawl (st : stats_t) (start_page : Z) (ios : list page_io)
  : option (loop_state * status) :=
  match crawl_loop ios (initial_state st start_page) with
  | (_, RUNNING) => None
  | (s, why) => Some (final_save s, why)
  end.

End Crawl.

(** [self.stats] after [__init__]. *)
Definition fresh_stats : stats_t := mk_stats 0 0 0.

(** The batches handed to [save_data], in order. *)
Fixpoint saved_batches (t : list event) : list (string * list entry) :=
  match t with
  | [] => []
  | EvSave label pages :: t' => (label, pages) :: saved_batches t'
  | _ :: t' => saved_batches t'
  end.

(** * Specification vocabulary *)

(** ** Strings and URLs *)

Definition brace_free (s : string) : bool :=
  negb (has_char "{" s) && negb (has_char "}" s).

Definition no_format : Z -> result string := fun _ => Raises OtherException.

(** ** Templates accepted by [format] *)









(** ** The page parameter of a URL *)




(** ** Traces of [fetch_page] *)

(** The retry warnings and the backoff sleeps of a trace. *)
Definition is_retry_log (e : event) : bool :=
  match e with EvLogRetry _ _ => true | _ => false end.

Definition retry_events (t : list event) : Z := len (filter is_retry_log t).

Fixpoint sleeps (t : list event) : list Z :=
  match t with
  | [] => []
  | EvSleep d :: t' => d :: sleeps t'
  | _ :: t' => sleeps t'
  end.

(** The collaborator keeps to the fetcher contract: a body or a request
    failure, nothing else. *)
Definition fetcher_contract (get : Z -> get_outcome) : Prop :=
  forall k e, get k <> GetRaises e.

(** Two sessions: the first two requests fail, or all do. *)
Definition fails_twice (i : Z) : get_outcome :=
  if i <? 2 then GetRequestException else GetText "<html>".

Definition always_fails (i : Z) : get_outcome := GetRequestException.

(** ** Pages of a run *)

(** What the iteration on page [n] finds, from the answers of the
    collaborators alone. *)
Inductive page_kind : Type :=
| FetchFailed                   (* fetch_page returned None or '' *)
| NoRecords                     (* parsed: no article and no link *)
| HasRecords                    (* parsed: at least one article or link *)
| ErrorBeforeCheck (e : exc).   (* raised before the record check ends *)

Definition page_kind_of (self : crawler) (io : page_io) (n : Z) : page_kind :=
  match build_url self n with
  | Raises e => ErrorBeforeCheck e
  | Returns u =>
      match fst (fetch_page (max_retries self) (io_get io) u 0) with
      | Raises e => ErrorBeforeCheck e
      | Returns html =>
          if not_html html then FetchFailed
          else
            match io_parse io with
            | Raises e => ErrorBeforeCheck e
            | Returns d =>
                match articles d, links d with
                | None, _ => ErrorBeforeCheck OtherException
                | Some (_ :: _), _ => HasRecords
                | Some [], None => ErrorBeforeCheck OtherException
                | Some [], Some [] => NoRecords
                | Some [], Some (_ :: _) => HasRecords
                end
            end
      end
  end.

(** The page result of the iteration on page [n]: a fetched and parsed
    page with both collections and at least one record. *)
Definition recorded (self : crawler) (io : page_io) (n : Z) : list entry :=
  match build_url self n with
  | Raises _ => []
  | Returns u =>
      match fst (fetch_page (max_retries self) (io_get io) u 0) with
      | Raises _ => []
      | Returns html =>
          if not_html html then []
          else
            match io_parse io with
            | Raises _ => []
            | Returns d =>
                match articles d, links d with
                | Some a, Some l =>
                    if is_nil a && is_nil l then [] else [mk_entry n u d]
                | _, _ => []
                end
            end
      end
  end.


(** [len(data['articles']) + len(data['links'])] of a stored result. *)
Definition record_count (e : entry) : Z :=
  match articles (data e), links (data e) with
  | Some a, Some l => len a + len l
  | _, _ => 0
  end.

Fixpoint total_records (l : list entry) : Z :=
  match l with
  | [] => 0
  | e :: l' => record_count e + total_records l'
  end.

(** The parser answers with both collections, as [parse_page] does. *)
Definition both_collections (io : page_io) : Prop :=
  forall d, io_parse io = Returns d -> articles d <> None /\ links d <> None.

(** Events of [fetch_page]. *)
Definition is_fetch_event (e : event) : bool :=
  match e with
  | EvGet _ _ | EvLogRetry _ _ | EvSleep _ | EvLogGiveUp _ => true
  | _ => false
  end.

(** ** Sample runs *)

Definition example_crawler : crawler :=
  mk_crawler "https://x/p?page={page}" 3 no_format.

Definition impatient_crawler : crawler :=
  mk_crawler "https://x/p?page={page}" 0 no_format.

Definition no_data : page_data := mk_data (Some []) (Some []) 6.

Definition one_link : page_data := mk_data (Some []) (Some [("next", "/p")]) 6.

(** The shape returned by [custom_parse] in [example_usage]: no ['links']. *)
Definition articles_only : page_data := mk_data (Some [("title", "content")]) None 6.

Definition page_with (d : page_data) (more : bool) : page_io :=
  mk_io (fun _ => GetText "<html>") (Returns d) (Returns tt) (Returns more) (Returns tt).

Definition failed_page : page_io :=
  mk_io always_fails (Returns one_link) (Returns tt) (Returns true) (Returns tt).

Definition broken_predicate (d : page_data) : page_io :=
  mk_io (fun _ => GetText "<html>") (Returns d) (Returns tt)
        (Raises OtherException) (Returns tt).

Definition three_empty_pages : list page_io :=
  [page_with no_data true; page_with no_data true;
   page_with no_data true; page_with one_link true].

Definition three_pages : list page_io :=
  [page_with one_link true; page_with one_link true; page_with one_link false].



(** * Further vocabulary *)

(** ** Requests and sleeps of a trace *)

Definition is_get (e : event) : bool :=
  match e with EvGet _ _ => true | _ => false end.

(** The number of requests sent. *)
Definition requests (t : list event) : Z := len (filter is_get t).

(** The seconds slept in backoff. *)
Definition total_sleep (t : list event) : Z := fold_right Z.add 0 (sleeps t).

Definition gives_up (t : list event) : bool :=
  existsb (fun e => match e with EvLogGiveUp _ => true | _ => false end) t.

(** A session whose first [k] requests fail and whose next one is
    interrupted from the keyboard. *)
Definition interrupted_at (k : Z) (i : Z) : get_outcome :=
  if i <? k then GetRequestException else GetRaises KeyboardInterrupt.

(** ** Pages and calls of a run *)

(** The page numbers a run works on, one per iteration. *)
Fixpoint visited (self : crawler) (max_empty_pages save_interval : Z)
  (ios : list page_io) (s : loop_state) : list Z :=
  match ios with
  | [] => []
  | io :: rest =>
      page_num s ::
      match crawl_step self max_empty_pages save_interval io s with
      | (s', RUNNING) => visited self max_empty_pages save_interval rest s'
      | _ => []
      end
  end.

Definition is_has_next (e : event) : bool :=
  match e with EvHasNext _ => true | _ => false end.

(** The number of calls of [has_next_page]. *)
Definition next_checks (t : list event) : Z := len (filter is_has_next t).

Definition is_delay (e : event) : bool :=
  match e with EvDelay => true | _ => false end.

(** The number of calls of [random_delay]. *)
Definition delays (t : list event) : Z := len (filter is_delay t).

(** A page that is fetched at the first request and whose parser
    returns a dictionary without ['articles'] or without ['links']. *)
Definition keyless (io : page_io) : Prop :=
  (exists c t, io_get io 0 = GetText (String c t))
  /\ exists d, io_parse io = Returns d /\ (articles d = None \/ links d = None).

(** A template with a field that [format(page=...)] does not know, as
    the one of [configure_for_specific_site]. *)
Definition two_field_crawler : crawler :=
  mk_crawler "https://z/api/columns/{name}/articles?limit=10&offset={page}"
             3 no_format.

Definition interrupted_page : page_io :=
  mk_io (fun _ => GetText "<html>") (Returns one_link) (Returns tt)
        (Returns true) (Raises KeyboardInterrupt).

(** An iteration without a failed fetch and without a counted error. *)
Definition quiet_step (self : crawler) (max_empty_pages save_interval : Z)
  (io : page_io) (s : loop_state) : Prop :=
  page_kind_of self io (page_num s) <> FetchFailed
  /\ errors (stats (fst (crawl_step self max_empty_pages save_interval io s)))
     = errors (stats s).

(** A run all of whose iterations are quiet. *)
Fixpoint quiet_run (self : crawler) (max_empty_pages save_interval : Z)
  (ios : list page_io) (s : loop_state) : Prop :=
  match ios with
  | [] => True
  | io :: rest =>
      quiet_step self max_empty_pages save_interval io s
      /\ match crawl_step self max_empty_pages save_interval io s with
         | (s', RUNNING) => quiet_run self max_empty_pages save_interval rest s'
         | _ => True
         end
  end.

(** ** Checkpoint files *)

(** The name [save_data] gives to the file it writes:
    <<
    filename = f"page_{page_num}_data.{format}"
    >>
    [crawl] passes the batch label as [page_num] and leaves [format] to
    its default, ['json']. *)
Definition save_filename (page_num format : string) : string :=
  "page_" ++ page_num ++ "_data." ++ format.

(** The files written by the calls of [save_data] in a trace. *)
Definition written_files (t : list event) : list string :=
  map (fun b => save_filename (fst b) "json") (saved_batches t).

(** The label of the periodic batch saved on page [n]. *)
Definition batch_label (save_interval n : Z) : string :=
  "batch_" ++ str (n / save_interval).

(** [bs] are periodic batches saved on the pages [ns], all of them from
    [lo] on and below [hi]. *)
Definition checkpoints (save_interval lo hi : Z) (ns : list Z)
  (bs : list (string * list entry)) : Prop :=
  Forall2
    (fun n b =>
       save_interval <> 0 /\ n mod save_interval = 0 /\ lo <= n < hi
       /\ fst b = batch_label save_interval n
       /\ (1 <= save_interval ->
           exists front e,
             snd b = (front ++ [e])%list /\ page e = n
             /\ len (snd b) <= save_interval))
    ns bs
  /\ NoDup ns.

(** ** Templates *)

(** The three shapes of template for which [crawl] builds a URL that
    shows the page number: one [{page}] field in text without braces; a
    [?page=1] parameter, the first [=] of the template, with no other
    [page=1] after it; neither [{page}] nor [?page=]. *)
Definition page_template (c : crawler) : Prop :=
  (exists pre post,
     base_url c = pre ++ "{page}" ++ post
     /\ brace_free pre = true /\ brace_free post = true)
  \/ (exists pre post,
        base_url c = pre ++ "?page=1" ++ post
        /\ contains "{page}" (base_url c) = false
        /\ has_char "=" pre = false
        /\ contains "page=1" post = false)
  \/ (contains "{page}" (base_url c) = false
      /\ contains "?page=" (base_url c) = false).

(** A template that asks for page 2. *)
Definition second_page_crawler : crawler :=
  mk_crawler "https://x/list?page=2" 3 no_format.

(** ** The default [parse_page] and [has_next_page] *)

(** An [article] element as [parse_page] looks at it: the stripped text
    of its first [h2] and of its first [div] of class [content], when
    there is one. *)
Record article_tag : Type := mk_article {
  h2_text : option string;        (* article.find('h2') *)
  content_text : option string    (* article.find('div', class_='content') *)
}.

(** A parsed document, by the answers of the BeautifulSoup calls the two
    methods make. *)
Record document : Type := mk_document {
  doc_anchors : list item;         (* find_all('a', href=True): text, href *)
  doc_articles : list article_tag; (* find_all('article') *)
  doc_length : Z;                  (* len(html) *)
  doc_next_link : bool;            (* find('a', text=...) finds the next-page link *)
  doc_link_to : string -> bool;    (* find('a', href=h) finds a link *)
  doc_content_length : option Z    (* find('div', id='content'): length of its stripped text *)
}.

(** <<
    links = []
    for a in soup.find_all('a', href=True):
        links.append({'text': a.get_text(strip=True), 'url': a['href']})
    >> *)
Definition parse_links (anchors : list item) : list item :=
  fold_left (fun links a => links ++ [(fst a, snd a)])%list anchors [].

(** <<
    articles = []
    for article in soup.find_all('article'):
        title = article.find('h2')
        content = article.find('div', class_='content')
        if title and content:
            articles.append({'title': ..., 'content': ...})
    >>
    A tag that was found is true, whatever its content. *)
Definition parse_articles (tags : list article_tag) : list item :=
  fold_left
    (fun articles t =>
       match h2_text t, content_text t with
       | Some title, Some content => articles ++ [(title, content)]
       | _, _ => articles
       end)%list
    tags [].

(** [parse_page(html)], on the document parsed from [html]. *)
Definition parse_page (doc : document) : page_data :=
  let links := parse_links (doc_anchors doc) in
  let articles := parse_articles (doc_articles doc) in
  mk_data (Some articles) (Some links) (doc_length doc).

(** <<
    next_link = soup.find('a', text=NEXT_PAGE)    # the link labelled 'next page'
    if next_link:
        return True
    next_page_btn = soup.find('a', href=f'?page={current_page + 1}')
    if next_page_btn:
        return True
    content = soup.find('div', id='content')
    if content and len(content.get_text(strip=True)) < 10:
        return False
    return True
    >> *)
Definition has_next_page (doc : document) (current_page : Z) : bool :=
  if doc_next_link doc then true
  else if doc_link_to doc ("?page=" ++ str (current_page + 1)) then true
  else match doc_content_length doc with
       | Some k => if k <? 10 then false else true
       | None => true
       end.

(** The article of a tag that has both parts. *)
Definition complete_article (t : article_tag) : list item :=
  match h2_text t, content_text t with
  | Some title, Some content => [(title, content)]
  | _, _ => []
  end.

(** The page is parsed by the default [parse_page]. *)
Definition default_parser (io : page_io) : Prop :=
  exists doc, io_parse io = Returns (parse_page doc).

(** A document with one complete article, one article without content,
    and a short [content] division. *)
Definition sample_document : document :=
  mk_document [] [mk_article (Some "T") (Some "C"); mk_article (Some "U") None]
              120 false (fun _ => false) (Some 4).

Definition sample_page : page_io :=
  mk_io (fun _ => GetText "<html>") (Returns (parse_page sample_document))
        (Returns tt) (Returns (has_next_page sample_document 1)) (Returns tt).

(** * Properties *)

(** ** Strings *)

Lemma append_assoc (a b c : string) : (a ++ b) ++ c = a ++ b ++ c.
Proof. induction a as [|x a IH]; simpl; [reflexivity | now rewrite IH]. Qed.

Lemma append_nil_r (a : string) : a ++ "" = a.
Proof. induction a as [|x a IH]; simpl; [reflexivity | now rewrite IH]. Qed.

Lemma startswith_app (p s : string) : startswith p (p ++ s) = true.
Proof.
  induction p as [|a p IH]; simpl; [reflexivity |].
  now rewrite Ascii.eqb_refl, IH.
Qed.

Lemma startswith_contains (p s : string) :
  startswith p s = true -> contains p s = true.
Proof. intros H. destruct s; cbn [contains]; rewrite H; reflexivity. Qed.

Lemma contains_app (sub pre post : string) :
  contains sub (pre ++ sub ++ post) = true.
Proof.
  induction pre as [|a pre IH].
  - change ("" ++ sub ++ post) with (sub ++ post).
    apply startswith_contains, startswith_app.
  - change (String a pre ++ sub ++ post) with (String a (pre ++ sub ++ post)).
    cbn [contains]. rewrite IH. apply orb_true_r.
Qed.

Lemma has_char_app (c : ascii) (a b : string) :
  has_char c (a ++ b) = has_char c a || has_char c b.
Proof.
  induction a as [|x a IH]; simpl; [reflexivity |].
  now rewrite IH, orb_assoc.
Qed.

Lemma format_app_cons (c : ascii) (p : string) (r : format_result) :
  format_app (String c p) r = format_cons c (format_app p r).
Proof. destruct r; reflexivity. Qed.

(** Literal text without braces is copied. *)
Lemma format_from_text (n : Z) (pre rest : string) :
  brace_free pre = true ->
  format_from n InText (pre ++ rest) = format_app pre (format_from n InText rest).
Proof.
  unfold brace_free. induction pre as [|c pre IH]; intros H.
  - simpl. destruct (format_from n InText rest); reflexivity.
  - cbn [has_char] in H. apply andb_true_iff in H as [H1 H2].
    apply negb_true_iff, orb_false_iff in H1 as [H1 H1'].
    apply negb_true_iff, orb_false_iff in H2 as [H2 H2'].
    rewrite format_app_cons, <- IH by (now rewrite H1', H2').
    change (String c pre ++ rest) with (String c (pre ++ rest)).
    cbn [format_from].
    rewrite (Ascii.eqb_sym c "{"), H1, (Ascii.eqb_sym c "}"), H2. reflexivity.
Qed.

(** The field [{page}] becomes [str n]. *)
Lemma format_from_page (n : Z) (rest : string) :
  format_from n InText ("{page}" ++ rest)
  = format_app (str n) (format_from n InText rest).
Proof. reflexivity. Qed.

Lemma format_placeholder (n : Z) (pre post post' : string) :
  brace_free pre = true ->
  format post n = Formatted post' ->
  format (pre ++ "{page}" ++ post) n = Formatted (pre ++ str n ++ post').
Proof.
  unfold format. intros Hpre Hpost.
  rewrite format_from_text by assumption.
  rewrite format_from_page, Hpost. reflexivity.
Qed.

Lemma format_text (n : Z) (s : string) :
  brace_free s = true -> format s n = Formatted s.
Proof.
  intros H. unfold format.
  rewrite <- (append_nil_r s) at 1.
  rewrite format_from_text by assumption. simpl. now rewrite append_nil_r.
Qed.

(** [old] is not found: nothing is replaced. *)
Lemma replace_absent (old new s : string) :
  contains old s = false -> replace_from old new O s = s.
Proof.
  induction s as [|c s IH]; intros H; [reflexivity |].
  cbn [contains] in H. apply orb_false_iff in H as [H1 H2].
  cbn [replace_from]. rewrite H1, IH by assumption. reflexivity.
Qed.

(** No occurrence of [page=1] starts inside a prefix free of [=]. *)
Lemma startswith_page1_inside (x post : string) :
  x <> "" -> has_char "=" x = false ->
  startswith "page=1" (x ++ "page=1" ++ post) = false.
Proof.
  intros Hne H.
  destruct x as [|c0 [|c1 [|c2 [|c3 [|c4 x]]]]]; [congruence | | | | |];
    cbn [has_char startswith append] in H |- *;
    repeat match goal with
           | Hor : orb _ _ = false |- _ => apply orb_false_iff in Hor as [? Hor]
           end;
    repeat match goal with
           | |- context [Ascii.eqb ?a ?b] =>
               is_var b; destruct (Ascii.eqb a b) eqn:?;
               cbn [andb]; try reflexivity; try congruence
           end.
Qed.

Lemma replace_page1 (new x post : string) :
  has_char "=" x = false ->
  contains "page=1" post = false ->
  replace "page=1" new (x ++ "page=1" ++ post) = x ++ new ++ post.
Proof.
  unfold replace. intros Hx Hpost.
  induction x as [|c x IH].
  - cbn. now rewrite replace_absent.
  - assert (Hin : startswith "page=1" (String c x ++ "page=1" ++ post) = false)
      by (apply startswith_page1_inside; [discriminate | assumption]).
    cbn [has_char] in Hx. apply orb_false_iff in Hx as [_ Hx].
    change (String c x ++ "page=1" ++ post)
      with (String c (x ++ "page=1" ++ post)) in *.
    cbn [replace_from]. rewrite Hin, IH by assumption. reflexivity.
Qed.

(** ** URL construction *)


















(** The [?page=] branch rewrites the literal text [page=1] only: a
    template whose parameter has another value is returned unchanged. *)
Example build_url_page_not_one :
  build_url (mk_crawler "https://example.com/list?page=2" 3 no_format) 7
  = Returns "https://example.com/list?page=2".
Proof. reflexivity. Qed.

Example build_url_escaped_placeholder :
  build_url (mk_crawler "https://example.com/{{page}}" 3 no_format) 5
  = Returns "https://example.com/{page}".
Proof. reflexivity. Qed.

(** ** [fetch_page] *)

Section FetchPageFacts.

Variable max_retries : Z.
Variable get : Z -> get_outcome.
Variable u : string.

Local Abbreviation fetch := (fetch_page max_retries get u).

Lemma fetch_page_text (rc : Z) (t : string) :
  get rc = GetText t -> fetch rc = (Returns (Some t), [EvGet u rc]).
Proof. intros H. rewrite fetch_page_equation_1, H. reflexivity. Qed.

Lemma fetch_page_raises (rc : Z) (e : exc) :
  get rc = GetRaises e -> fetch rc = (Raises e, [EvGet u rc]).
Proof. intros H. rewrite fetch_page_equation_1, H. reflexivity. Qed.

Lemma fetch_page_retry (rc : Z) :
  get rc = GetRequestException -> rc < max_retries ->
  fetch rc =
    (fst (fetch (rc + 1)),
     EvGet u rc :: EvLogRetry u (rc + 1) :: EvSleep (backoff rc)
       :: snd (fetch (rc + 1))).
Proof.
  intros H Hlt. rewrite fetch_page_equation_1, H. cbn.
  destruct (Z_lt_dec rc max_retries); [reflexivity | contradiction].
Qed.

Lemma fetch_page_give_up (rc : Z) :
  get rc = GetRequestException -> max_retries <= rc ->
  fetch rc = (Returns None, [EvGet u rc; EvLogGiveUp u]).
Proof.
  intros H Hge. rewrite fetch_page_equation_1, H. cbn.
  destruct (Z_lt_dec rc max_retries); [lia | reflexivity].
Qed.

End FetchPageFacts.

Section FetchPageRuns.

Variable max_retries : Z.
Variable get : Z -> get_outcome.
Variable u : string.

Local Abbreviation fetch := (fetch_page max_retries get u).

(** Under the fetcher contract the call returns. *)
Lemma fetch_page_returns (rc : Z) :
  fetcher_contract get -> exists v, fst (fetch rc) = Returns v.
Proof.
  intros Hc.
  remember (Z.to_nat (max_retries - rc)) as m eqn:Hm.
  revert rc Hm. induction m as [|m IH]; intros rc Hm;
    destruct (get rc) as [t | | e] eqn:G.
  - rewrite fetch_page_text with (t := t) by assumption. cbn [fst]. eauto.
  - rewrite fetch_page_give_up by (assumption || lia). cbn [fst]. eauto.
  - now apply Hc in G.
  - rewrite fetch_page_text with (t := t) by assumption. cbn [fst]. eauto.
  - rewrite fetch_page_retry by (assumption || lia). cbn [fst].
    apply IH. lia.
  - now apply Hc in G.
Qed.

(** [k] failures from [rc] on, then a body: the body is returned after
    [k] retry warnings. *)
Lemma fetch_page_recovers (k : nat) (rc : Z) (t : string) :
  (forall i, rc <= i < rc + Z.of_nat k -> get i = GetRequestException) ->
  get (rc + Z.of_nat k) = GetText t ->
  rc + Z.of_nat k <= max_retries ->
  fst (fetch rc) = Returns (Some t)
  /\ retry_events (snd (fetch rc)) = Z.of_nat k.
Proof.
  revert rc. induction k as [|k IH]; intros rc Hfail Hok Hle.
  - replace (rc + Z.of_nat 0) with rc in Hok by lia.
    rewrite fetch_page_text with (t := t) by assumption. split; reflexivity.
  - rewrite fetch_page_retry by (try apply Hfail; lia).
    destruct (IH (rc + 1)) as [Hv Hn].
    + intros i Hi. apply Hfail. lia.
    + replace (rc + 1 + Z.of_nat k) with (rc + Z.of_nat (S k)) by lia.
      assumption.
    + lia.
    + cbn [fst snd]. split; [assumption |].
      unfold retry_events, len in *. cbn [filter is_retry_log List.length].
      lia.
Qed.

(** Failures at every attempt from [rc] up to [max_retries]: [None]. *)
Lemma fetch_page_exhausts (rc : Z) :
  (forall i, rc <= i <= Z.max rc max_retries -> get i = GetRequestException) ->
  fst (fetch rc) = Returns None
  /\ retry_events (snd (fetch rc)) = Z.max 0 (max_retries - rc)
  /\ In (EvLogGiveUp u) (snd (fetch rc)).
Proof.
  remember (Z.to_nat (max_retries - rc)) as m eqn:Hm.
  revert rc Hm. induction m as [|m IH]; intros rc Hm Hfail.
  - rewrite fetch_page_give_up by (try apply Hfail; lia).
    cbn. repeat split; try lia. now right; left.
  - rewrite fetch_page_retry by (try apply Hfail; lia).
    destruct (IH (rc + 1)) as [Hv [Hn Hin]]; [lia | |].
    + intros i Hi. apply Hfail. lia.
    + cbn [fst snd]. split; [assumption | split].
      * unfold retry_events, len in *. cbn [filter is_retry_log List.length].
        lia.
      * now do 3 right.
Qed.

(** The sleep before the retry that follows the failure of the call
    with [retry_count = rc + k]. *)
Lemma fetch_page_sleep (k : nat) (rc : Z) :
  (forall i, rc <= i <= rc + Z.of_nat k -> get i = GetRequestException) ->
  rc + Z.of_nat k < max_retries ->
  nth_error (sleeps (snd (fetch rc))) k = Some (backoff (rc + Z.of_nat k)).
Proof.
  revert rc. induction k as [|k IH]; intros rc Hfail Hlt;
    rewrite fetch_page_retry by (try apply Hfail; lia);
    cbn [snd sleeps nth_error].
  - f_equal. f_equal. lia.
  - rewrite IH.
    + f_equal. f_equal. lia.
    + intros i Hi. apply Hfail. lia.
    + lia.
Qed.

End FetchPageRuns.

(** C5.  When the session answers each request with a body or a request
    failure, [fetch_page] returns a value and raises nothing; when every
    request up to the last retry fails, it returns [None] after logging
    the exhaustion; when the first [k] requests fail and the next one
    succeeds, with [k <= max_retries], it returns the body after exactly
    [k] retry warnings. *)
Theorem fetch_page_reports_failure
  (max_retries : Z) (get : Z -> get_outcome) (u : string) (k : nat) (t : string) :
  fetcher_contract get ->
  (exists v, fst (fetch_page max_retries get u 0) = Returns v)
  /\ ((forall i, 0 <= i <= Z.max 0 max_retries -> get i = GetRequestException) ->
      fst (fetch_page max_retries get u 0) = Returns None
      /\ retry_events (snd (fetch_page max_retries get u 0)) = Z.max 0 max_retries
      /\ In (EvLogGiveUp u) (snd (fetch_page max_retries get u 0)))
  /\ ((forall i, 0 <= i < Z.of_nat k -> get i = GetRequestException) ->
      get (Z.of_nat k) = GetText t ->
      Z.of_nat k <= max_retries ->
      fst (fetch_page max_retries get u 0) = Returns (Some t)
      /\ retry_events (snd (fetch_page max_retries get u 0)) = Z.of_nat k).
Proof.
  intros Hc. split; [| split].
  - apply fetch_page_returns, Hc.
  - intros Hfail.
    destruct (fetch_page_exhausts max_retries get u 0 Hfail) as [Hv [Hn Hin]].
    rewrite Z.sub_0_r in Hn. auto.
  - intros Hfail Hok Hle.
    apply (fetch_page_recovers max_retries get u k 0 t); auto.
Qed.

Lemma fetch_page_reports_failure_witness :
  (fst (fetch_page 3 fails_twice "https://x/p?page=1" 0) = Returns (Some "<html>")
   /\ retry_events (snd (fetch_page 3 fails_twice "https://x/p?page=1" 0)) = 2)
  /\ fst (fetch_page 3 always_fails "https://x/p?page=1" 0) = Returns None.
Proof.
  split.
  - apply (fetch_page_reports_failure 3 fails_twice "https://x/p?page=1" 2 "<html>").
    + intros i e. unfold fails_twice. destruct (i <? 2); discriminate.
    + intros i Hi. unfold fails_twice.
      destruct (Z.ltb_spec i 2); [reflexivity | simpl in Hi; lia].
    + reflexivity.
    + simpl. lia.
  - apply (fetch_page_reports_failure 3 always_fails "https://x/p?page=1" 0 "").
    + intros i e. discriminate.
    + intros i Hi. reflexivity.
Defined.

(** C6.  When the calls with [retry_count] 0 to [k] fail and [k] is
    below [max_retries], the [k]-th sleep of the call lasts [1 * 2^k]:
    1 before the first retry, 2 before the second; the delays do not
    decrease with [k]. *)
Theorem backoff_schedule
  (max_retries : Z) (get : Z -> get_outcome) (u : string) (k : nat) :
  (forall i, 0 <= i <= Z.of_nat k -> get i = GetRequestException) ->
  Z.of_nat k < max_retries ->
  nth_error (sleeps (snd (fetch_page max_retries get u 0))) k
  = Some (1 * 2 ^ Z.of_nat k)
  /\ backoff 0 = 1
  /\ backoff 1 = 2
  /\ (forall j, 0 <= j <= Z.of_nat k -> backoff j <= backoff (Z.of_nat k)).
Proof.
  intros Hfail Hlt. split; [| split; [| split]]; try reflexivity.
  - rewrite (fetch_page_sleep max_retries get u k 0) by (auto; lia).
    unfold backoff. f_equal. rewrite Z.add_0_l. lia.
  - intros j Hj. unfold backoff. apply Z.pow_le_mono_r; lia.
Qed.

Lemma backoff_schedule_witness :
  nth_error (sleeps (snd (fetch_page 3 always_fails "https://x/p?page=1" 0))) 2
  = Some (1 * 2 ^ 2).
Proof.
  apply (backoff_schedule 3 always_fails "https://x/p?page=1" 2).
  - intros i Hi. reflexivity.
  - simpl. lia.
Defined.

(** ** One iteration of the loop *)

Ltac unfold_step :=
  cbv beta iota zeta delta
    [crawl_step crawl_body count_empty_page record_page periodic_save no_records
     bind ret exit read update call when getitem py_mod py_floordiv
     set_page_num set_empty_pages_count set_all_data set_stats emit
     incr_pages_crawled add_total_data incr_errors is_nil negb andb].

Ltac simp_step :=
  cbn [fst snd stats page_num empty_pages_count all_data trace
       pages_crawled total_data errors not_html
       articles links page_size io_get io_parse io_save io_has_next io_delay].

(** Case analysis on the answers of the collaborators and on the tests
    of the loop, in program order. *)
Ltac case_atom :=
  match goal with
  | |- context [build_url ?c ?n] => destruct (build_url c n) as [?u|[|]] eqn:?
  | |- context [fetch_page ?m ?g ?u ?k] =>
      destruct (fetch_page m g u k) as [[[[|? ?]|]|[|]] ?evs] eqn:?
  | _ : fetch_page _ _ _ _ = (Returns None, _) |- context [?a >=? ?b] =>
      destruct (Z.geb_spec a b)
  | _ : fetch_page _ _ _ _ = (Returns (Some EmptyString), _)
    |- context [?a >=? ?b] => destruct (Z.geb_spec a b)
  | |- context [io_parse ?io] =>
      destruct (io_parse io) as [[[[|? ?]|] [[|? ?]|] ?]|[|]] eqn:?
  | |- context [?a >=? ?b] => destruct (Z.geb_spec a b)
  | |- context [?a =? ?b] => destruct (Z.eqb_spec a b)
  | |- context [io_save ?io] => destruct (io_save io) as [[]|[|]] eqn:?
  | |- context [io_has_next ?io] => destruct (io_has_next io) as [[|]|[|]] eqn:?
  | |- context [io_delay ?io] => destruct (io_delay io) as [[]|[|]] eqn:?
  | |- context [?a >? ?b] => destruct (Z.gtb_spec a b)
  end.

Ltac break_step := simp_step; repeat (case_atom; simp_step).

(** The counter after an iteration, by the kind of its page, and the
    only way to [TERMINATED_NO_CONTENT]. *)
Lemma step_counter (self : crawler) (m si : Z) (io : page_io) (s : loop_state) :
  match page_kind_of self io (page_num s) with
  | HasRecords => empty_pages_count (fst (crawl_step self m si io s)) = 0
  | FetchFailed | NoRecords =>
      empty_pages_count (fst (crawl_step self m si io s)) = empty_pages_count s + 1
  | ErrorBeforeCheck _ =>
      empty_pages_count (fst (crawl_step self m si io s)) = empty_pages_count s
  end
  /\ (snd (crawl_step self m si io s) = TERMINATED_NO_CONTENT <->
      (page_kind_of self io (page_num s) = FetchFailed
       \/ page_kind_of self io (page_num s) = NoRecords)
      /\ empty_pages_count (fst (crawl_step self m si io s)) >= m).
Proof.
  unfold page_kind_of. unfold_step. break_step.
  all: split;
    [ reflexivity || lia
    | split;
      [ let H := fresh in
        intros H; try discriminate H; (split; [auto | simpl; lia])
      | let H := fresh in
        let H' := fresh in
        intros [[H|H] H']; try discriminate H; try reflexivity;
        simpl in *; try lia ] ].
Qed.

Lemma crawl_loop_cons (self : crawler) (m si : Z) (io : page_io)
  (ios : list page_io) (s : loop_state) :
  crawl_loop self m si (io :: ios) s =
  match snd (crawl_step self m si io s) with
  | RUNNING => crawl_loop self m si ios (fst (crawl_step self m si io s))
  | _ => crawl_step self m si io s
  end.
Proof.
  cbn [crawl_loop]. destruct (crawl_step self m si io s) as [s' []]; reflexivity.
Qed.

(** While the loop runs the counter stays below the limit, and the loop
    is left through [TERMINATED_NO_CONTENT] exactly with the counter at
    the limit. *)
Lemma loop_counter (self : crawler) (m si : Z) (ios : list page_io) :
  1 <= m ->
  forall s, 0 <= empty_pages_count s < m ->
  0 <= empty_pages_count (fst (crawl_loop self m si ios s)) <= m
  /\ (snd (crawl_loop self m si ios s) = TERMINATED_NO_CONTENT <->
      empty_pages_count (fst (crawl_loop self m si ios s)) = m).
Proof.
  intros Hm. induction ios as [|io ios IH]; intros s Hs.
  - cbn. split; [lia | split; [discriminate | lia]].
  - rewrite crawl_loop_cons.
    destruct (step_counter self m si io s) as [Hc Hstop].
    destruct (snd (crawl_step self m si io s)) eqn:Est.
    + apply IH.
      destruct (page_kind_of self io (page_num s));
        try lia;
        (assert (~ empty_pages_count (fst (crawl_step self m si io s)) >= m)
          by (intros Hge; assert (RUNNING = TERMINATED_NO_CONTENT)
                by (apply Hstop; auto); discriminate); lia).
    + rewrite Est. destruct Hstop as [Hstop _].
      destruct (Hstop eq_refl) as [[Hk|Hk] Hge]; rewrite Hk in Hc;
        (split; [lia | split; [lia | reflexivity]]).
    + rewrite Est.
      assert (Hlt : empty_pages_count (fst (crawl_step self m si io s)) < m).
      { destruct (page_kind_of self io (page_num s)); try lia;
          destruct (Z_lt_dec (empty_pages_count (fst (crawl_step self m si io s))) m);
          try assumption;
          (assert (TERMINATED_LAST_PAGE = TERMINATED_NO_CONTENT)
            by (apply Hstop; split; [auto | lia]); discriminate). }
      destruct (page_kind_of self io (page_num s));
        (split; [lia | split; [discriminate | lia]]).
    + rewrite Est.
      assert (Hlt : empty_pages_count (fst (crawl_step self m si io s)) < m).
      { destruct (page_kind_of self io (page_num s)); try lia;
          destruct (Z_lt_dec (empty_pages_count (fst (crawl_step self m si io s))) m);
          try assumption;
          (assert (TERMINATED_SAFETY_LIMIT = TERMINATED_NO_CONTENT)
            by (apply Hstop; split; [auto | lia]); discriminate). }
      destruct (page_kind_of self io (page_num s));
        (split; [lia | split; [discriminate | lia]]).
    + rewrite Est.
      assert (Hlt : empty_pages_count (fst (crawl_step self m si io s)) < m).
      { destruct (page_kind_of self io (page_num s)); try lia;
          destruct (Z_lt_dec (empty_pages_count (fst (crawl_step self m si io s))) m);
          try assumption;
          (assert (TERMINATED_INTERRUPTED = TERMINATED_NO_CONTENT)
            by (apply Hstop; split; [auto | lia]); discriminate). }
      destruct (page_kind_of self io (page_num s));
        (split; [lia | split; [discriminate | lia]]).
Qed.

(** C1.  With a limit of at least one: after any iterations of a run
    the counter lies between 0 and [max_empty_pages], and the run has
    stopped in [TERMINATED_NO_CONTENT] exactly when the counter equals
    the limit (so the first time it gets there).  In every iteration the
    counter becomes 0 on a page with a record, grows by one on a failed
    fetch and on a page without records, and is otherwise unchanged. *)
Theorem empty_page_counter
  (self : crawler) (max_empty_pages save_interval : Z)
  (st : stats_t) (start_page : Z) (ios : list page_io) :
  1 <= max_empty_pages ->
  (0 <= empty_pages_count
          (fst (crawl_loop self max_empty_pages save_interval ios
                  (initial_state st start_page))) <= max_empty_pages
   /\ (snd (crawl_loop self max_empty_pages save_interval ios
              (initial_state st start_page)) = TERMINATED_NO_CONTENT <->
       empty_pages_count
         (fst (crawl_loop self max_empty_pages save_interval ios
                 (initial_state st start_page))) = max_empty_pages))
  /\ (forall io s,
        match page_kind_of self io (page_num s) with
        | HasRecords =>
            empty_pages_count
              (fst (crawl_step self max_empty_pages save_interval io s)) = 0
        | FetchFailed | NoRecords =>
            empty_pages_count
              (fst (crawl_step self max_empty_pages save_interval io s))
            = empty_pages_count s + 1
        | ErrorBeforeCheck _ =>
            empty_pages_count
              (fst (crawl_step self max_empty_pages save_interval io s))
            = empty_pages_count s
        end).
Proof.
  intros Hm. split.
  - apply loop_counter; [assumption | cbn; lia].
  - intros io s. apply step_counter.
Qed.

Lemma empty_page_counter_witness :
  snd (crawl_loop example_crawler 3 10 three_empty_pages
         (initial_state fresh_stats 1)) = TERMINATED_NO_CONTENT <->
  empty_pages_count
    (fst (crawl_loop example_crawler 3 10 three_empty_pages
            (initial_state fresh_stats 1))) = 3.
Proof.
  assert (H : 1 <= 3) by lia.
  pose proof (empty_page_counter example_crawler 3 10 fresh_stats 1
                three_empty_pages H) as [[_ Hiff] _].
  exact Hiff.
Defined.

(** Scenario A: three pages without records, limit 3. *)
Example scenario_no_content :
  exists s,
    crawl example_crawler 3 10 fresh_stats 1
      [page_with no_data true; page_with no_data true; page_with no_data true]
    = Some (s, TERMINATED_NO_CONTENT)
    /\ page_num s = 3 /\ pages_crawled (stats s) = 0.
Proof. eexists. split; [vm_compute; reflexivity | split; reflexivity]. Qed.

(** ** The buffer and the saved batches *)

Lemma fetch_page_events (m : Z) (get : Z -> get_outcome) (u : string) (rc : Z) :
  forallb is_fetch_event (snd (fetch_page m get u rc)) = true.
Proof.
  remember (Z.to_nat (m - rc)) as k eqn:Hk.
  revert rc Hk. induction k as [|k IH]; intros rc Hk;
    destruct (get rc) as [t | | e] eqn:G.
  - rewrite fetch_page_text with (t := t) by assumption. reflexivity.
  - rewrite fetch_page_give_up by (assumption || lia). reflexivity.
  - rewrite fetch_page_raises with (e := e) by assumption. reflexivity.
  - rewrite fetch_page_text with (t := t) by assumption. reflexivity.
  - rewrite fetch_page_retry by (assumption || lia).
    cbn [snd forallb is_fetch_event andb]. apply IH. lia.
  - rewrite fetch_page_raises with (e := e) by assumption. reflexivity.
Qed.

Lemma saved_batches_app (t1 t2 : list event) :
  saved_batches (t1 ++ t2) = (saved_batches t1 ++ saved_batches t2)%list.
Proof.
  induction t1 as [|e t1 IH]; [reflexivity |].
  destruct e; cbn [saved_batches app]; rewrite IH; reflexivity.
Qed.

Lemma saved_batches_fetch (evs : list event) :
  forallb is_fetch_event evs = true -> saved_batches evs = [].
Proof.
  induction evs as [|e evs IH]; [reflexivity |].
  cbn [forallb]. intros H. apply andb_true_iff in H as [He H].
  destruct e; try discriminate He; cbn [saved_batches]; auto.
Qed.

(** An iteration appends the page result of its page, if there is one,
    and removes nothing. *)
Lemma step_buffer (self : crawler) (m si : Z) (io : page_io) (s : loop_state) :
  all_data (fst (crawl_step self m si io s))
  = (all_data s ++ recorded self io (page_num s))%list.
Proof.
  unfold recorded. unfold_step. break_step.
  all: cbn [app]; rewrite ?app_nil_r; reflexivity.
Qed.

(** The cursor moves by one in every iteration that does not leave the
    loop, and by at most one in the others. *)
Lemma step_page_num (self : crawler) (m si : Z) (io : page_io) (s : loop_state) :
  (snd (crawl_step self m si io s) = RUNNING ->
   page_num (fst (crawl_step self m si io s)) = page_num s + 1)
  /\ page_num s <= page_num (fst (crawl_step self m si io s)) <= page_num s + 1.
Proof.
  unfold_step. break_step.
  all: split; [intros Hrun; try discriminate Hrun; reflexivity | lia].
Qed.

(** The batches an iteration hands to [save_data]: at most one, made of
    the last [save_interval] elements of the buffer, which stays as it
    is. *)
Lemma step_saves (self : crawler) (m si : Z) (io : page_io) (s : loop_state) :
  saved_batches (trace (fst (crawl_step self m si io s)))
  = saved_batches (trace s)
  \/ (si <> 0 /\ page_num s mod si = 0
      /\ recorded self io (page_num s) <> []
      /\ saved_batches (trace (fst (crawl_step self m si io s)))
         = (saved_batches (trace s)
              ++ [(("batch_" ++ str (page_num s / si))%string,
                   slice_from (- si)
                     (all_data (fst (crawl_step self m si io s))))])%list).
Proof.
  unfold recorded. unfold_step. simp_step.
  destruct (build_url self (page_num s)) as [u|[|]];
    simp_step; [| left; reflexivity | left; reflexivity].
  generalize (fetch_page_events (max_retries self) (io_get io) u 0).
  destruct (fetch_page (max_retries self) (io_get io) u 0)
    as [[[[|? ?]|]|[|]] evs];
    cbn [snd]; intros Hf; apply saved_batches_fetch in Hf; break_step.
  all: rewrite ?saved_batches_app, ?Hf; cbn [saved_batches app];
    rewrite ?app_nil_r;
    first [ left; reflexivity
          | right; repeat split; try assumption; try discriminate ].
Qed.

Lemma recorded_page (self : crawler) (io : page_io) (n : Z) (e : entry) :
  In e (recorded self io n) -> page e = n.
Proof.
  unfold recorded.
  destruct (build_url self n) as [u|]; [| contradiction].
  destruct (fst (fetch_page (max_retries self) (io_get io) u 0)) as [html|];
    [| contradiction].
  destruct (not_html html); [contradiction |].
  destruct (io_parse io) as [d|]; [| contradiction].
  destruct (articles d) as [a|]; [| contradiction].
  destruct (links d) as [l|]; [| contradiction].
  destruct (is_nil a && is_nil l); [contradiction |].
  intros [<- | []]. reflexivity.
Qed.



Lemma NoDup_snoc {A : Type} (l : list A) (x : A) :
  NoDup l -> ~ In x l -> NoDup (l ++ [x]).
Proof.
  induction l as [|y l IH]; intros Hl Hx; cbn [app].
  - constructor; [intros [] | constructor].
  - inversion Hl as [|? ? Hy Hl']; subst. constructor.
    + intros Hin. apply in_app_or in Hin as [Hin | [-> | []]];
        [contradiction | apply Hx; now left].
    + apply IH; [assumption | intros Hin; apply Hx; now right].
Qed.






Lemma final_save_batches (s : loop_state) :
  all_data (final_save s) = all_data s
  /\ saved_batches (trace (final_save s))
     = (saved_batches (trace s)
          ++ if is_nil (all_data s) then [] else [("final", all_data s)])%list.
Proof.
  unfold final_save. destruct (is_nil (all_data s)).
  - now rewrite app_nil_r.
  - cbn [emit all_data trace]. now rewrite saved_batches_app.
Qed.

Lemma crawl_returns (self : crawler) (m si : Z) (st : stats_t) (start : Z)
  (ios : list page_io) (s : loop_state) (why : status) :
  crawl self m si st start ios = Some (s, why) ->
  s = final_save (fst (crawl_loop self m si ios (initial_state st start)))
  /\ why = snd (crawl_loop self m si ios (initial_state st start))
  /\ why <> RUNNING.
Proof.
  unfold crawl.
  destruct (crawl_loop self m si ios (initial_state st start)) as [s' []];
    intros H; inversion H; subst; repeat split; discriminate.
Qed.




(** ** A failed fetch *)

(** C4, as the code has it.  When [fetch_page] returns nothing for the
    page, the iteration adds one to the counter of empty pages and
    leaves [self.stats] as it is, the error count included; it calls
    nothing but [fetch_page] (no parser, no [has_next_page], no
    [random_delay], no [save_data]); it leaves the loop when the counter
    has reached the limit and moves to the next page otherwise. *)
Theorem failed_fetch_step
  (self : crawler) (max_empty_pages save_interval : Z)
  (io : page_io) (s : loop_state) (u : string) (html : option string) :
  build_url self (page_num s) = Returns u ->
  fst (fetch_page (max_retries self) (io_get io) u 0) = Returns html ->
  not_html html = true ->
  let r := crawl_step self max_empty_pages save_interval io s in
  empty_pages_count (fst r) = empty_pages_count s + 1
  /\ stats (fst r) = stats s
  /\ all_data (fst r) = all_data s
  /\ trace (fst r)
     = (trace s ++ snd (fetch_page (max_retries self) (io_get io) u 0))%list
  /\ forallb is_fetch_event
       (snd (fetch_page (max_retries self) (io_get io) u 0)) = true
  /\ (empty_pages_count s + 1 >= max_empty_pages ->
      snd r = TERMINATED_NO_CONTENT /\ page_num (fst r) = page_num s)
  /\ (empty_pages_count s + 1 < max_empty_pages ->
      snd r = RUNNING /\ page_num (fst r) = page_num s + 1).
Proof.
  intros Hu Hf Hn. cbv zeta.
  pose proof (fetch_page_events (max_retries self) (io_get io) u 0) as Hev.
  unfold_step. rewrite Hu. simp_step.
  destruct (fetch_page (max_retries self) (io_get io) u 0) as [r evs].
  cbn [fst snd] in *. subst r.
  destruct html as [[|c t]|]; try discriminate Hn; break_step.
  all: repeat split; try reflexivity; try assumption; intros; lia.
Qed.

Lemma failed_fetch_step_witness :
  empty_pages_count
    (fst (crawl_step example_crawler 3 10 failed_page
            (initial_state fresh_stats 1))) = 0 + 1
  /\ stats (fst (crawl_step example_crawler 3 10 failed_page
                   (initial_state fresh_stats 1))) = fresh_stats.
Proof.
  assert (Hu : build_url example_crawler 1 = Returns "https://x/p?page=1")
    by reflexivity.
  assert (Hf : fst (fetch_page 3 always_fails "https://x/p?page=1" 0)
               = Returns None) by reflexivity.
  assert (Hn : not_html None = true) by reflexivity.
  pose proof (failed_fetch_step example_crawler 3 10 failed_page
                (initial_state fresh_stats 1) "https://x/p?page=1" None
                Hu Hf Hn) as [Hc [Hs _]].
  split; [exact Hc | exact Hs].
Defined.

(** C4 as stated fails: after a fetch that exhausted its retries the
    error count is what it was. *)
Lemma failed_fetch_leaves_error_count :
  page_kind_of example_crawler failed_page 1 = FetchFailed
  /\ errors (stats (fst (crawl_step example_crawler 3 10 failed_page
                           (initial_state fresh_stats 1)))) = 0
  /\ errors (stats (fst (crawl_step example_crawler 3 10 failed_page
                           (initial_state fresh_stats 1))))
     <> errors fresh_stats + 1
  /\ empty_pages_count
       (fst (crawl_step example_crawler 3 10 failed_page
               (initial_state fresh_stats 1))) = 1.
Proof. vm_compute. repeat split; discriminate. Qed.

(** ** A page without records *)

Lemma no_records_not_recorded (self : crawler) (io : page_io) (n : Z) :
  page_kind_of self io n = NoRecords -> recorded self io n = [].
Proof.
  unfold page_kind_of, recorded.
  destruct (build_url self n) as [u|]; [| reflexivity].
  destruct (fst (fetch_page (max_retries self) (io_get io) u 0)) as [html|];
    [| reflexivity].
  destruct (not_html html); [reflexivity |].
  destruct (io_parse io) as [d|]; [| reflexivity].
  destruct (articles d) as [[|? ?]|]; try discriminate;
    destruct (links d) as [[|? ?]|]; try discriminate; reflexivity.
Qed.

(** C8, as the code has it.  When the page is fetched and parsed to no
    record and the counter thereby reaches the limit, the loop is left
    in [TERMINATED_NO_CONTENT] with the buffer, the statistics and the
    cursor as they were: nothing is appended for the empty page, and the
    final batch is the buffer from before that page. *)
Theorem empty_page_at_limit
  (self : crawler) (max_empty_pages save_interval : Z)
  (io : page_io) (s : loop_state) :
  page_kind_of self io (page_num s) = NoRecords ->
  empty_pages_count s + 1 >= max_empty_pages ->
  let r := crawl_step self max_empty_pages save_interval io s in
  snd r = TERMINATED_NO_CONTENT
  /\ empty_pages_count (fst r) = empty_pages_count s + 1
  /\ all_data (fst r) = all_data s
  /\ stats (fst r) = stats s
  /\ page_num (fst r) = page_num s
  /\ saved_batches (trace (final_save (fst r)))
     = (saved_batches (trace s)
          ++ if is_nil (all_data s) then [] else [("final", all_data s)])%list.
Proof.
  intros Hk Hge. cbv zeta.
  pose proof (step_counter self max_empty_pages save_interval io s) as [Hc Hstop].
  pose proof (step_buffer self max_empty_pages save_interval io s) as Hb.
  pose proof (step_saves self max_empty_pages save_interval io s) as Hs.
  rewrite (no_records_not_recorded _ _ _ Hk), app_nil_r in Hb.
  rewrite Hk in Hc.
  assert (Hstat : snd (crawl_step self max_empty_pages save_interval io s)
                  = TERMINATED_NO_CONTENT ->
                  stats (fst (crawl_step self max_empty_pages save_interval io s))
                  = stats s
                  /\ page_num (fst (crawl_step self max_empty_pages
                                      save_interval io s)) = page_num s).
  { revert Hk. clear. unfold page_kind_of. unfold_step. break_step.
    all: intros Hk Hq; try discriminate Hk; try discriminate Hq;
      split; reflexivity. }
  assert (Hstopped : snd (crawl_step self max_empty_pages save_interval io s)
                     = TERMINATED_NO_CONTENT).
  { apply Hstop. split; [now right | lia]. }
  destruct (Hstat Hstopped) as [Hst Hpage].
  destruct (final_save_batches
              (fst (crawl_step self max_empty_pages save_interval io s)))
    as [_ Hfin].
  repeat split; try assumption.
  rewrite Hfin, Hb.
  destruct Hs as [-> | [_ [_ [Hrec _]]]]; [reflexivity |].
  now rewrite (no_records_not_recorded _ _ _ Hk) in Hrec.
Qed.

Lemma empty_page_at_limit_witness :
  snd (crawl_step example_crawler 1 10 (page_with no_data true)
         (initial_state fresh_stats 1)) = TERMINATED_NO_CONTENT
  /\ all_data (fst (crawl_step example_crawler 1 10 (page_with no_data true)
                      (initial_state fresh_stats 1))) = [].
Proof.
  assert (Hk : page_kind_of example_crawler (page_with no_data true)
                 (page_num (initial_state fresh_stats 1)) = NoRecords)
    by reflexivity.
  assert (Hge : empty_pages_count (initial_state fresh_stats 1) + 1 >= 1)
    by (cbn; lia).
  pose proof (empty_page_at_limit example_crawler 1 10 (page_with no_data true)
                (initial_state fresh_stats 1) Hk Hge) as [Hs [_ [Hd _]]].
  split; [exact Hs | exact Hd].
Defined.

(** C8 as stated fails: page 1 has a record, page 2 has none and the
    limit is 1; the final batch holds page 1 only. *)
Lemma trailing_empty_page_not_saved :
  exists s e,
    crawl example_crawler 1 10 fresh_stats 1
      [page_with one_link true; page_with no_data true]
    = Some (s, TERMINATED_NO_CONTENT)
    /\ page_num s = 2
    /\ saved_batches (trace s) = [("final", [e])]
    /\ page e = 1
    /\ ~ (exists e', In e' (all_data s) /\ page e' = 2).
Proof.
  eexists. eexists. split; [vm_compute; reflexivity |].
  repeat split. intros [e' [[<- | []] H]]. discriminate H.
Qed.

(** ** An unexpected error *)

(** C9.  When the [try] block is left by an exception other than
    [KeyboardInterrupt], the iteration keeps the loop running, adds one
    to the error count, moves the cursor to the next page and leaves the
    counter of empty pages at the value it had when the exception was
    raised: the value at the start of the iteration if the page had not
    reached the record check, otherwise the value set by that check (0
    for a page with records, one more for a page without, still below
    the limit).  The error itself adds nothing to the counter. *)
Theorem processing_error_step
  (self : crawler) (max_empty_pages save_interval : Z)
  (io : page_io) (s s_raise : loop_state) :
  crawl_body self max_empty_pages save_interval io s
  = (s_raise, Exit (Raised OtherException)) ->
  let r := crawl_step self max_empty_pages save_interval io s in
  snd r = RUNNING
  /\ errors (stats (fst r)) = errors (stats s) + 1
  /\ page_num (fst r) = page_num s + 1
  /\ empty_pages_count (fst r) = empty_pages_count s_raise
  /\ all_data (fst r) = all_data s_raise
  /\ match page_kind_of self io (page_num s) with
     | ErrorBeforeCheck _ => empty_pages_count (fst r) = empty_pages_count s
     | HasRecords => empty_pages_count (fst r) = 0
     | NoRecords =>
         empty_pages_count (fst r) = empty_pages_count s + 1
         /\ empty_pages_count s + 1 < max_empty_pages
     | FetchFailed => False
     end.
Proof.
  cbv zeta. unfold page_kind_of. unfold_step. break_step.
  all: intros Hraise; inversion Hraise; subst; cbn;
    repeat split; try reflexivity; lia.
Qed.

Lemma processing_error_step_witness :
  snd (crawl_step example_crawler 3 10 (broken_predicate no_data)
         (initial_state fresh_stats 1)) = RUNNING
  /\ errors (stats (fst (crawl_step example_crawler 3 10
                           (broken_predicate no_data)
                           (initial_state fresh_stats 1))))
     = errors (stats (initial_state fresh_stats 1)) + 1.
Proof.
  destruct (crawl_body example_crawler 3 10 (broken_predicate no_data)
              (initial_state fresh_stats 1)) as [s_raise o] eqn:E.
  assert (Ho : o = Exit (Raised OtherException))
    by (vm_compute in E; inversion E; reflexivity).
  subst o.
  pose proof (processing_error_step example_crawler 3 10
                (broken_predicate no_data) (initial_state fresh_stats 1)
                s_raise E) as [Hr [He _]].
  split; [exact Hr | exact He].
Defined.

(** ** The page limit *)

(** C7 at a failing input.  The run starts at page 10000000 with
    [max_empty_pages = 2]; the fetch of that page fails, the cursor
    moves to 10000001 through [continue] without the test against the
    limit, and page 10000001 is fetched, parsed and recorded. *)
Theorem page_limit_skipped_after_failed_fetch :
  exists s,
    crawl impatient_crawler 2 10 fresh_stats 10000000
      [failed_page; page_with one_link false]
    = Some (s, TERMINATED_LAST_PAGE)
    /\ In (EvGet "https://x/p?page=10000001" 0) (trace s)
    /\ map page (all_data s) = [10000001]
    /\ 10000001 > 10000000.
Proof.
  eexists. split; [vm_compute; reflexivity |].
  split; [cbn; auto 10 | split; [reflexivity | lia]].
Qed.

(** The [except Exception] handler moves the cursor without the test
    too. *)
Example page_limit_skipped_after_error :
  page_num
    (fst (crawl_step example_crawler 3 10 (broken_predicate one_link)
            (initial_state fresh_stats 10000000))) = 10000001
  /\ snd (crawl_step example_crawler 3 10 (broken_predicate one_link)
            (initial_state fresh_stats 10000000)) = RUNNING.
Proof. vm_compute. split; reflexivity. Qed.

(** On the path that reaches [random_delay] the test is made: the loop
    goes on without a new error only with the cursor within the limit,
    unless the fetch failed. *)
Lemma page_limit_checked_after_delay
  (self : crawler) (m si : Z) (io : page_io) (s : loop_state) :
  snd (crawl_step self m si io s) = RUNNING ->
  errors (stats (fst (crawl_step self m si io s))) = errors (stats s) ->
  page_kind_of self io (page_num s) <> FetchFailed ->
  page_num (fst (crawl_step self m si io s)) <= 10000000.
Proof.
  unfold page_kind_of. unfold_step. break_step.
  all: intros Hrun Herr Hk; try discriminate Hrun; try congruence;
    cbn in *; lia.
Qed.

(** ** Statistics and the buffer *)

(** C10 at a failing input.  The parser returns a dictionary with one
    article and no ['links'] key, as [custom_parse] of [example_usage]
    does: [pages_crawled] is incremented, the evaluation of
    [len(data['links'])] raises KeyError before [total_data] is updated
    and before the result is appended, and the handler goes on to the
    next page.  [pages_crawled] is then 1 with an empty buffer. *)
Theorem pages_crawled_without_result :
  pages_crawled
    (stats (fst (crawl_step example_crawler 3 10 (page_with articles_only true)
                   (initial_state fresh_stats 1)))) = 1
  /\ all_data (fst (crawl_step example_crawler 3 10
                      (page_with articles_only true)
                      (initial_state fresh_stats 1))) = []
  /\ total_data
       (stats (fst (crawl_step example_crawler 3 10
                      (page_with articles_only true)
                      (initial_state fresh_stats 1)))) = 0
  /\ errors
       (stats (fst (crawl_step example_crawler 3 10
                      (page_with articles_only true)
                      (initial_state fresh_stats 1)))) = 1
  /\ snd (crawl_step example_crawler 3 10 (page_with articles_only true)
            (initial_state fresh_stats 1)) = RUNNING.
Proof. vm_compute. repeat split. Qed.

Ltac use_both_collections :=
  match goal with
  | Hb : both_collections ?io, E : io_parse ?io = Returns ?d |- _ =>
      let Ha := fresh in
      let Hl := fresh in
      destruct (Hb d E) as [Ha Hl]; cbn in Ha, Hl; try congruence
  end.

(** With a parser that returns both collections the two statistics
    follow the buffer. *)
Lemma step_stats (self : crawler) (m si : Z) (io : page_io) (s : loop_state) :
  both_collections io ->
  pages_crawled (stats (fst (crawl_step self m si io s)))
  = pages_crawled (stats s) + len (recorded self io (page_num s))
  /\ total_data (stats (fst (crawl_step self m si io s)))
     = total_data (stats s) + total_records (recorded self io (page_num s)).
Proof.
  unfold recorded. unfold_step. break_step.
  all: intros Hboth; try use_both_collections;
    cbn [total_records record_count data articles links andb is_nil];
    unfold len; cbn [List.length];
    split; lia.
Qed.

Lemma len_app {A : Type} (l1 l2 : list A) : len (l1 ++ l2) = len l1 + len l2.
Proof. unfold len. rewrite length_app. lia. Qed.

Lemma total_records_app (l1 l2 : list entry) :
  total_records (l1 ++ l2) = total_records l1 + total_records l2.
Proof.
  induction l1 as [|e l1 IH]; cbn [app total_records]; [lia |].
  rewrite IH. lia.
Qed.

Lemma loop_stats (self : crawler) (m si : Z) (ios : list page_io) :
  Forall both_collections ios ->
  forall s,
    pages_crawled (stats (fst (crawl_loop self m si ios s)))
    - len (all_data (fst (crawl_loop self m si ios s)))
    = pages_crawled (stats s) - len (all_data s)
    /\ total_data (stats (fst (crawl_loop self m si ios s)))
       - total_records (all_data (fst (crawl_loop self m si ios s)))
       = total_data (stats s) - total_records (all_data s).
Proof.
  induction 1 as [|io ios Hio _ IH]; intros s; [cbn; lia |].
  rewrite crawl_loop_cons.
  pose proof (step_stats self m si io s Hio) as [Hp Ht].
  pose proof (step_buffer self m si io s) as Hb.
  assert (Hstep :
    pages_crawled (stats (fst (crawl_step self m si io s)))
    - len (all_data (fst (crawl_step self m si io s)))
    = pages_crawled (stats s) - len (all_data s)
    /\ total_data (stats (fst (crawl_step self m si io s)))
       - total_records (all_data (fst (crawl_step self m si io s)))
       = total_data (stats s) - total_records (all_data s)).
  { rewrite Hb, len_app, total_records_app. lia. }
  destruct (crawl_step self m si io s) as [s' st]. cbn [fst snd] in *.
  destruct st; cbn [fst]; try exact Hstep.
  destruct (IH s') as [IHp IHt]. lia.
Qed.

(** A run of a fresh crawler whose parser returns both collections:
    [pages_crawled] counts the buffered results and [total_data] their
    records. *)
Lemma stats_follow_buffer (self : crawler) (m si : Z) (start : Z)
  (ios : list page_io) :
  Forall both_collections ios ->
  pages_crawled (stats (fst (crawl_loop self m si ios
                              (initial_state fresh_stats start))))
  = len (all_data (fst (crawl_loop self m si ios
                          (initial_state fresh_stats start))))
  /\ total_data (stats (fst (crawl_loop self m si ios
                              (initial_state fresh_stats start))))
     = total_records (all_data (fst (crawl_loop self m si ios
                                       (initial_state fresh_stats start)))).
Proof.
  intros H.
  destruct (loop_stats self m si ios H (initial_state fresh_stats start))
    as [Hp Ht].
  cbn in Hp, Ht. lia.
Qed.

(** * Further properties *)

(** ** More on [fetch_page] *)

Lemma fetch_page_budget_from (m : Z) (get : Z -> get_outcome) (u : string)
  (rc : Z) :
  0 <= rc ->
  let t := snd (fetch_page m get u rc) in
  0 <= retry_events t <= Z.max 0 (m - rc)
  /\ requests t = retry_events t + 1
  /\ total_sleep t = 2 ^ (rc + retry_events t) - 2 ^ rc.
Proof.
  cbv zeta.
  remember (Z.to_nat (m - rc)) as k eqn:Hk.
  revert rc Hk. induction k as [|k IH]; intros rc Hk Hrc;
    destruct (get rc) as [t | | e] eqn:G.
  - rewrite fetch_page_text with (t := t) by assumption.
    cbn. rewrite Z.add_0_r. lia.
  - rewrite fetch_page_give_up by (assumption || lia).
    cbn. rewrite Z.add_0_r. lia.
  - rewrite fetch_page_raises with (e := e) by assumption.
    cbn. rewrite Z.add_0_r. lia.
  - rewrite fetch_page_text with (t := t) by assumption.
    cbn. rewrite Z.add_0_r. lia.
  - rewrite fetch_page_retry by (assumption || lia).
    destruct (IH (rc + 1)) as [Hr [Hq Hs]]; [lia | lia |].
    cbn [snd]. unfold retry_events, requests, total_sleep, len in *.
    cbn [filter is_retry_log is_get sleeps fold_right List.length].
    rewrite Hs. unfold backoff.
    replace (rc + Z.of_nat (S (Datatypes.length
               (filter is_retry_log (snd (fetch_page m get u (rc + 1)))))))
      with (rc + 1 + Z.of_nat (Datatypes.length
               (filter is_retry_log (snd (fetch_page m get u (rc + 1))))))
      by lia.
    replace (2 ^ (rc + 1)) with (2 * 2 ^ rc) by (rewrite Z.pow_add_r; lia).
    lia.
  - rewrite fetch_page_raises with (e := e) by assumption.
    cbn. rewrite Z.add_0_r. lia.
Qed.

(** X1.  Whatever the session answers, a call of [fetch_page] with
    [retry_count = 0] makes [k] retries with [0 <= k <= max(0,
    max_retries)], sends exactly [k + 1] requests and sleeps
    [1 + 2 + ... + 2^(k-1) = 2^k - 1] seconds in all. *)
Theorem fetch_page_budget (m : Z) (get : Z -> get_outcome) (u : string) :
  let t := snd (fetch_page m get u 0) in
  0 <= retry_events t <= Z.max 0 m
  /\ requests t = retry_events t + 1
  /\ total_sleep t = 2 ^ retry_events t - 1.
Proof.
  cbv zeta.
  destruct (fetch_page_budget_from m get u 0) as [Hr [Hq Hs]]; [lia |].
  rewrite Z.sub_0_r in Hr. cbn [Z.add] in Hs.
  repeat split; lia.
Qed.

Lemma fetch_page_propagates_from (m : Z) (get : Z -> get_outcome) (u : string)
  (e : exc) (k : nat) (rc : Z) :
  (forall i, rc <= i < rc + Z.of_nat k -> get i = GetRequestException) ->
  get (rc + Z.of_nat k) = GetRaises e ->
  rc + Z.of_nat k <= m ->
  fst (fetch_page m get u rc) = Raises e
  /\ requests (snd (fetch_page m get u rc)) = Z.of_nat k + 1
  /\ gives_up (snd (fetch_page m get u rc)) = false.
Proof.
  revert rc. induction k as [|k IH]; intros rc Hfail He Hle.
  - replace (rc + Z.of_nat 0) with rc in He by lia.
    rewrite fetch_page_raises with (e := e) by assumption.
    repeat split.
  - rewrite fetch_page_retry by (try apply Hfail; lia).
    destruct (IH (rc + 1)) as [Hv [Hn Hg]].
    + intros i Hi. apply Hfail. lia.
    + replace (rc + 1 + Z.of_nat k) with (rc + Z.of_nat (S k)) by lia.
      assumption.
    + lia.
    + cbn [fst snd]. split; [assumption | split].
      * unfold requests, len in *. cbn [filter is_get List.length]. lia.
      * cbn [gives_up existsb orb] in *. exact Hg.
Qed.

(** X2.  [fetch_page] catches request failures only.  When the first
    [k] requests fail, [k <= max_retries], and the next one raises
    anything else (KeyboardInterrupt among them), that exception leaves
    [fetch_page] after [k + 1] requests: it is neither retried nor turned
    into [None]. *)
Theorem fetch_page_propagates (m : Z) (get : Z -> get_outcome) (u : string)
  (e : exc) (k : nat) :
  (forall i, 0 <= i < Z.of_nat k -> get i = GetRequestException) ->
  get (Z.of_nat k) = GetRaises e ->
  Z.of_nat k <= m ->
  fst (fetch_page m get u 0) = Raises e
  /\ requests (snd (fetch_page m get u 0)) = Z.of_nat k + 1
  /\ gives_up (snd (fetch_page m get u 0)) = false.
Proof.
  intros Hfail He Hle.
  apply (fetch_page_propagates_from m get u e k 0); cbn [Z.add]; assumption.
Qed.

Lemma fetch_page_propagates_witness :
  fst (fetch_page 3 (interrupted_at 2) "u" 0) = Raises KeyboardInterrupt
  /\ requests (snd (fetch_page 3 (interrupted_at 2) "u" 0)) = 3.
Proof.
  assert (Hf : forall i, 0 <= i < Z.of_nat 2 ->
                 interrupted_at 2 i = GetRequestException).
  { intros i Hi. unfold interrupted_at.
    destruct (Z.ltb_spec i 2); [reflexivity | lia]. }
  assert (He : interrupted_at 2 (Z.of_nat 2) = GetRaises KeyboardInterrupt)
    by reflexivity.
  assert (Hle : Z.of_nat 2 <= 3) by (cbn; lia).
  pose proof (fetch_page_propagates 3 (interrupted_at 2) "u"
                KeyboardInterrupt 2 Hf He Hle) as [Hv [Hn _]].
  split; [exact Hv | exact Hn].
Defined.

Lemma fetch_page_inversion_from (m : Z) (get : Z -> get_outcome) (u : string)
  (rc : Z) :
  match fst (fetch_page m get u rc) with
  | Returns (Some t) =>
      exists k, rc <= k <= Z.max rc m /\ get k = GetText t
                /\ forall i, rc <= i < k -> get i = GetRequestException
  | Returns None =>
      forall i, rc <= i <= Z.max rc m -> get i = GetRequestException
  | Raises e =>
      exists k, rc <= k <= Z.max rc m /\ get k = GetRaises e
                /\ forall i, rc <= i < k -> get i = GetRequestException
  end.
Proof.
  remember (Z.to_nat (m - rc)) as n eqn:Hn.
  revert rc Hn. induction n as [|n IH]; intros rc Hn;
    destruct (get rc) as [t | | e] eqn:G.
  - rewrite fetch_page_text with (t := t) by assumption. cbn [fst].
    exists rc. repeat split; first [lia | assumption | intros; lia].
  - rewrite fetch_page_give_up by (assumption || lia). cbn [fst].
    intros i Hi. replace i with rc by lia. assumption.
  - rewrite fetch_page_raises with (e := e) by assumption. cbn [fst].
    exists rc. repeat split; first [lia | assumption | intros; lia].
  - rewrite fetch_page_text with (t := t) by assumption. cbn [fst].
    exists rc. repeat split; first [lia | assumption | intros; lia].
  - rewrite fetch_page_retry by (assumption || lia). cbn [fst].
    specialize (IH (rc + 1) ltac:(lia)).
    destruct (fst (fetch_page m get u (rc + 1))) as [[t|]|e].
    + destruct IH as [k [Hk [Ht Hbefore]]]. exists k.
      split; [lia | split; [assumption |]].
      intros i Hi. destruct (Z.eq_dec i rc) as [-> | Hne];
        [assumption | apply Hbefore; lia].
    + intros i Hi. destruct (Z.eq_dec i rc) as [-> | Hne];
        [assumption | apply IH; lia].
    + destruct IH as [k [Hk [Ht Hbefore]]]. exists k.
      split; [lia | split; [assumption |]].
      intros i Hi. destruct (Z.eq_dec i rc) as [-> | Hne];
        [assumption | apply Hbefore; lia].
  - rewrite fetch_page_raises with (e := e) by assumption. cbn [fst].
    exists rc. repeat split; first [lia | assumption | intros; lia].
Qed.

(** X3.  What the value returned by [fetch_page] says about the
    requests: a body is the answer of the first request that did not
    fail, sent after at most [max_retries] retries; [None] is returned
    only when every request up to the last retry failed. *)
Theorem fetch_page_inversion (m : Z) (get : Z -> get_outcome) (u : string) :
  (forall t, fst (fetch_page m get u 0) = Returns (Some t) ->
     exists k, 0 <= k <= Z.max 0 m /\ get k = GetText t
               /\ forall i, 0 <= i < k -> get i = GetRequestException)
  /\ (fst (fetch_page m get u 0) = Returns None ->
      forall i, 0 <= i <= Z.max 0 m -> get i = GetRequestException).
Proof.
  pose proof (fetch_page_inversion_from m get u 0) as H.
  split.
  - intros t Ht. rewrite Ht in H. exact H.
  - intros Hn. rewrite Hn in H. exact H.
Qed.

(** ** The cursor *)

(** X4.  A run works on consecutive page numbers from the page it
    starts at: the iteration of rank [k] works on page [start + k],
    whatever happened before it (failed fetches and errors included), so
    no page number is skipped or taken twice; the cursor never moves
    back, and it has moved by one per iteration when the loop is still
    running. *)
Theorem pages_visited_in_order (self : crawler) (m si : Z)
  (ios : list page_io) (s : loop_state) :
  (forall k n, nth_error (visited self m si ios s) k = Some n ->
               n = page_num s + Z.of_nat k)
  /\ page_num s <= page_num (fst (crawl_loop self m si ios s))
     <= page_num s + len ios
  /\ (snd (crawl_loop self m si ios s) = RUNNING ->
      page_num (fst (crawl_loop self m si ios s)) = page_num s + len ios
      /\ len (visited self m si ios s) = len ios).
Proof.
  revert s. induction ios as [|io ios IH]; intros s.
  - cbn. unfold len. cbn. repeat split; try lia. intros [|k] n H; discriminate H.
  - rewrite crawl_loop_cons. cbn [visited].
    pose proof (step_page_num self m si io s) as [Hrun Hb].
    destruct (crawl_step self m si io s) as [s' st] eqn:E. cbn [fst snd] in *.
    assert (Hlen : len (io :: ios) = len ios + 1)
      by (unfold len; cbn [List.length]; lia).
    assert (Hpos : 0 <= len ios) by (unfold len; lia).
    destruct st; cbn [fst snd].
    2-5: split;
      [ intros [|[|k]] n H; cbn in H; inversion H; lia
      | split; [lia | intros H; discriminate H] ].
    specialize (Hrun eq_refl). destruct (IH s') as [Hv [Hbound Hr]].
    split; [| split].
    + intros [|k] n H; cbn [nth_error] in H.
      * inversion H. lia.
      * apply Hv in H. lia.
    + lia.
    + intros H. destruct (Hr H) as [Hp Hl]. split; [lia |].
      unfold len in *. cbn [List.length]. lia.
Qed.

Lemma pages_visited_in_order_witness :
  nth_error (visited example_crawler 3 10
               [failed_page; broken_predicate one_link;
                page_with one_link false]
               (initial_state fresh_stats 7)) 2 = Some 9.
Proof.
  destruct (pages_visited_in_order example_crawler 3 10
              [failed_page; broken_predicate one_link;
               page_with one_link false]
              (initial_state fresh_stats 7)) as [Hv _].
  destruct (nth_error (visited example_crawler 3 10
               [failed_page; broken_predicate one_link;
                page_with one_link false]
               (initial_state fresh_stats 7)) 2) as [n|] eqn:E.
  - rewrite (Hv 2%nat n E). reflexivity.
  - vm_compute in E. discriminate E.
Defined.

(** ** Calls that an iteration does not make *)

Lemma next_checks_app (a b : list event) :
  next_checks (a ++ b) = next_checks a + next_checks b.
Proof. unfold next_checks, len. rewrite filter_app, length_app. lia. Qed.

Lemma delays_app (a b : list event) : delays (a ++ b) = delays a + delays b.
Proof. unfold delays, len. rewrite filter_app, length_app. lia. Qed.

Lemma requests_app (a b : list event) :
  requests (a ++ b) = requests a + requests b.
Proof. unfold requests, len. rewrite filter_app, length_app. lia. Qed.

Lemma fetch_events_only (evs : list event) :
  forallb is_fetch_event evs = true ->
  next_checks evs = 0 /\ delays evs = 0.
Proof.
  induction evs as [|e evs IH]; [split; reflexivity |].
  cbn [forallb]. intros H. apply andb_true_iff in H as [He H].
  destruct (IH H) as [Hn Hd].
  unfold next_checks, delays, len in *.
  destruct e; try discriminate He; cbn [filter is_has_next is_delay];
    split; assumption.
Qed.

(** ** Interruption from the keyboard *)

(** X5.  When KeyboardInterrupt leaves the [try] block, whichever call
    raised it, the loop is left at once: no error is counted, the cursor
    stays on the page, the counter of empty pages and the buffer are as
    the interrupted iteration left them, and the buffer holds the result
    of the page if it had been appended before the interruption. *)
Theorem keyboard_interrupt_step
  (self : crawler) (max_empty_pages save_interval : Z)
  (io : page_io) (s s_raise : loop_state) :
  crawl_body self max_empty_pages save_interval io s
  = (s_raise, Exit (Raised KeyboardInterrupt)) ->
  let r := crawl_step self max_empty_pages save_interval io s in
  snd r = TERMINATED_INTERRUPTED
  /\ fst r = s_raise
  /\ errors (stats (fst r)) = errors (stats s)
  /\ page_num (fst r) = page_num s
  /\ all_data (fst r) = (all_data s ++ recorded self io (page_num s))%list.
Proof.
  intros Hraise. cbv zeta.
  pose proof (step_buffer self max_empty_pages save_interval io s) as Hb.
  split; [| split; [| split; [| split; [| exact Hb]]]].
  1-2: unfold crawl_step; rewrite Hraise; reflexivity.
  all: clear Hb; revert Hraise; unfold_step; break_step.
  all: intros Hraise; inversion Hraise; subst; reflexivity.
Qed.

Lemma keyboard_interrupt_step_witness :
  snd (crawl_step example_crawler 3 10 interrupted_page
         (initial_state fresh_stats 1)) = TERMINATED_INTERRUPTED
  /\ errors (stats (fst (crawl_step example_crawler 3 10 interrupted_page
                           (initial_state fresh_stats 1)))) = 0.
Proof.
  destruct (crawl_body example_crawler 3 10 interrupted_page
              (initial_state fresh_stats 1)) as [s_raise o] eqn:E.
  assert (Ho : o = Exit (Raised KeyboardInterrupt))
    by (vm_compute in E; inversion E; reflexivity).
  subst o.
  pose proof (keyboard_interrupt_step example_crawler 3 10 interrupted_page
                (initial_state fresh_stats 1) s_raise E) as [Hr [_ [He _]]].
  split; [exact Hr | exact He].
Defined.

(** ** A parser that leaves a collection out *)

(** One iteration on a fetched page whose parser result lacks
    ['articles'] or ['links']. *)
Lemma missing_key_step (self : crawler) (m si : Z) (io : page_io)
  (s : loop_state) (u : string) (c : ascii) (t : string) (d : page_data) :
  build_url self (page_num s) = Returns u ->
  fst (fetch_page (max_retries self) (io_get io) u 0)
  = Returns (Some (String c t)) ->
  io_parse io = Returns d ->
  articles d = None \/ links d = None ->
  snd (crawl_step self m si io s) = RUNNING
  /\ errors (stats (fst (crawl_step self m si io s))) = errors (stats s) + 1
  /\ page_num (fst (crawl_step self m si io s)) = page_num s + 1
  /\ all_data (fst (crawl_step self m si io s)) = all_data s
  /\ total_data (stats (fst (crawl_step self m si io s))) = total_data (stats s)
  /\ next_checks (trace (fst (crawl_step self m si io s)))
     = next_checks (trace s)
  /\ match articles d with
     | Some (_ :: _) =>
         pages_crawled (stats (fst (crawl_step self m si io s)))
         = pages_crawled (stats s) + 1
         /\ empty_pages_count (fst (crawl_step self m si io s)) = 0
     | _ =>
         pages_crawled (stats (fst (crawl_step self m si io s)))
         = pages_crawled (stats s)
         /\ empty_pages_count (fst (crawl_step self m si io s))
            = empty_pages_count s
     end.
Proof.
  intros Hu Hf Hp Hmiss.
  pose proof (fetch_page_events (max_retries self) (io_get io) u 0) as Hev.
  apply fetch_events_only in Hev as [Hn _].
  unfold_step. rewrite Hu. simp_step.
  destruct (fetch_page (max_retries self) (io_get io) u 0) as [r evs].
  cbn [fst snd] in *. subst r. rewrite Hp. simp_step.
  destruct d as [[[|a0 a]|] [[|l0 l]|] size]; cbn [articles links] in *;
    try (destruct Hmiss as [Hmiss | Hmiss]; discriminate Hmiss);
    simp_step.
  all: rewrite ?next_checks_app, ?Hn; cbn; repeat split; lia.
Qed.

(** X6.  When the parser returns a dictionary without ['articles'] or
    without ['links'] for a fetched page, the lookup raises KeyError
    inside the [try] block: the page is not buffered, [total_data] is
    unchanged, an error is counted, the cursor moves on and
    [has_next_page] is not consulted.  If ['articles'] is there and not
    empty the page has already been counted in [pages_crawled] and the
    counter of empty pages reset. *)
Theorem parser_missing_key_step
  (self : crawler) (max_empty_pages save_interval : Z) (io : page_io)
  (s : loop_state) (u : string) (c : ascii) (t : string) (d : page_data) :
  build_url self (page_num s) = Returns u ->
  fst (fetch_page (max_retries self) (io_get io) u 0)
  = Returns (Some (String c t)) ->
  io_parse io = Returns d ->
  articles d = None \/ links d = None ->
  let r := crawl_step self max_empty_pages save_interval io s in
  snd r = RUNNING
  /\ errors (stats (fst r)) = errors (stats s) + 1
  /\ page_num (fst r) = page_num s + 1
  /\ all_data (fst r) = all_data s
  /\ total_data (stats (fst r)) = total_data (stats s)
  /\ next_checks (trace (fst r)) = next_checks (trace s)
  /\ match articles d with
     | Some (_ :: _) =>
         pages_crawled (stats (fst r)) = pages_crawled (stats s) + 1
         /\ empty_pages_count (fst r) = 0
     | _ =>
         pages_crawled (stats (fst r)) = pages_crawled (stats s)
         /\ empty_pages_count (fst r) = empty_pages_count s
     end.
Proof. intros Hu Hf Hp Hmiss. cbv zeta. eapply missing_key_step; eassumption. Qed.

Lemma parser_missing_key_step_witness :
  all_data (fst (crawl_step example_crawler 3 10 (page_with articles_only true)
                   (initial_state fresh_stats 1))) = []
  /\ next_checks (trace (fst (crawl_step example_crawler 3 10
                                (page_with articles_only true)
                                (initial_state fresh_stats 1)))) = 0.
Proof.
  assert (Hu : build_url example_crawler
                 (page_num (initial_state fresh_stats 1))
               = Returns "https://x/p?page=1") by reflexivity.
  assert (Hf : fst (fetch_page (max_retries example_crawler)
                      (io_get (page_with articles_only true))
                      "https://x/p?page=1" 0)
               = Returns (Some (String "<" "html>"))) by reflexivity.
  assert (Hp : io_parse (page_with articles_only true) = Returns articles_only)
    by reflexivity.
  assert (Hm : articles articles_only = None \/ links articles_only = None)
    by (right; reflexivity).
  pose proof (parser_missing_key_step example_crawler 3 10
                (page_with articles_only true) (initial_state fresh_stats 1)
                "https://x/p?page=1" "<" "html>" articles_only Hu Hf Hp Hm)
    as [_ [_ [_ [Hd [_ [Hn _]]]]]].
  split; [exact Hd | exact Hn].
Defined.

Lemma len_cons {A : Type} (a : A) (l : list A) : len (a :: l) = len l + 1.
Proof. unfold len. cbn [List.length]. lia. Qed.

(** X7.  With a parser that leaves a collection out, as [custom_parse]
    of [example_usage] does, a site that answers every first request
    keeps the loop running for ever: after any number of pages the loop
    has not been left, nothing is buffered, and every page has counted
    one error. *)
Theorem keyless_parser_never_stops
  (self : crawler) (max_empty_pages save_interval : Z) (st : stats_t)
  (start_page : Z) (ios : list page_io) :
  (forall n, exists u, build_url self n = Returns u) ->
  Forall keyless ios ->
  crawl self max_empty_pages save_interval st start_page ios = None
  /\ all_data (fst (crawl_loop self max_empty_pages save_interval ios
                      (initial_state st start_page))) = []
  /\ errors (stats (fst (crawl_loop self max_empty_pages save_interval ios
                           (initial_state st start_page))))
     = errors st + len ios.
Proof.
  intros Hurl Hios.
  assert (Hloop : forall s,
    snd (crawl_loop self max_empty_pages save_interval ios s) = RUNNING
    /\ all_data (fst (crawl_loop self max_empty_pages save_interval ios s))
       = all_data s
    /\ errors (stats (fst (crawl_loop self max_empty_pages save_interval ios s)))
       = errors (stats s) + len ios).
  { induction Hios as [|io ios [[c [t Hget]] [d [Hp Hmiss]]] _ IH]; intros s.
    - cbn. unfold len. cbn. repeat split; lia.
    - destruct (Hurl (page_num s)) as [u Hu].
      assert (Hf : fst (fetch_page (max_retries self) (io_get io) u 0)
                   = Returns (Some (String c t)))
        by (rewrite fetch_page_text with (t := String c t); auto).
      destruct (missing_key_step self max_empty_pages save_interval io s u c t d
                  Hu Hf Hp Hmiss) as [Hr [He [_ [Hd _]]]].
      rewrite crawl_loop_cons, Hr.
      destruct (IH (fst (crawl_step self max_empty_pages save_interval io s)))
        as [IHr [IHd IHe]].
      rewrite len_cons. repeat split; [assumption | congruence | lia]. }
  destruct (Hloop (initial_state st start_page)) as [Hr [Hd He]].
  split; [| split; [exact Hd | exact He]].
  unfold crawl.
  destruct (crawl_loop self max_empty_pages save_interval ios
              (initial_state st start_page)) as [s' why].
  cbn [snd] in Hr. subst why. reflexivity.
Qed.

Lemma keyless_parser_never_stops_witness :
  crawl example_crawler 3 10 fresh_stats 1
    [page_with articles_only true; page_with articles_only false] = None.
Proof.
  assert (Hurl : forall n, exists u, build_url example_crawler n = Returns u)
    by (intros n; eexists; reflexivity).
  assert (Hk : forall more, keyless (page_with articles_only more)).
  { intros more. split.
    - exists "<"%char, "html>". reflexivity.
    - exists articles_only. split; [reflexivity | right; reflexivity]. }
  assert (Hios : Forall keyless
                   [page_with articles_only true; page_with articles_only false])
    by (repeat constructor; apply Hk).
  pose proof (keyless_parser_never_stops example_crawler 3 10 fresh_stats 1
                [page_with articles_only true; page_with articles_only false]
                Hurl Hios) as [Hnone _].
  exact Hnone.
Defined.

(** X8.  When expanding the template raises for every page number (a
    field other than [{page}], an unmatched brace), every iteration
    ends in the handler before any request is sent: the loop never
    leaves, the trace of calls stays as it was, and each iteration counts
    one error and moves the cursor. *)
Theorem broken_template_never_fetches
  (self : crawler) (max_empty_pages save_interval : Z)
  (ios : list page_io) (s : loop_state) :
  (forall n, build_url self n = Raises OtherException) ->
  snd (crawl_loop self max_empty_pages save_interval ios s) = RUNNING
  /\ trace (fst (crawl_loop self max_empty_pages save_interval ios s)) = trace s
  /\ all_data (fst (crawl_loop self max_empty_pages save_interval ios s))
     = all_data s
  /\ errors (stats (fst (crawl_loop self max_empty_pages save_interval ios s)))
     = errors (stats s) + len ios
  /\ page_num (fst (crawl_loop self max_empty_pages save_interval ios s))
     = page_num s + len ios.
Proof.
  intros Hurl. revert s. induction ios as [|io ios IH]; intros s.
  - cbn. unfold len. cbn. repeat split; lia.
  - rewrite crawl_loop_cons.
    assert (Hstep : crawl_step self max_empty_pages save_interval io s
                    = (set_page_num (page_num s + 1)
                         (set_stats (incr_errors (stats s)) s), RUNNING)).
    { unfold_step. rewrite Hurl. reflexivity. }
    rewrite Hstep. cbn [fst snd].
    destruct (IH (set_page_num (page_num s + 1)
                    (set_stats (incr_errors (stats s)) s)))
      as [Hr [Ht [Hd [He Hp]]]].
    rewrite len_cons. cbn in Ht, Hd, He, Hp.
    repeat split; try assumption; lia.
Qed.

Lemma broken_template_never_fetches_witness :
  snd (crawl_loop two_field_crawler 3 10 [page_with one_link false]
         (initial_state fresh_stats 1)) = RUNNING
  /\ trace (fst (crawl_loop two_field_crawler 3 10 [page_with one_link false]
                   (initial_state fresh_stats 1))) = [].
Proof.
  assert (Hurl : forall n, build_url two_field_crawler n = Raises OtherException)
    by (intros n; reflexivity).
  pose proof (broken_template_never_fetches two_field_crawler 3 10
                [page_with one_link false] (initial_state fresh_stats 1) Hurl)
    as [Hr [Ht _]].
  split; [exact Hr | exact Ht].
Defined.

(** ** [save_interval = 0] *)

(** X9.  With [save_interval = 0] the test [page_num % save_interval]
    raises ZeroDivisionError on every page that has records, after the
    page has been counted and appended: the page is in the buffer, an
    error is counted, nothing is handed to [save_data], and
    [has_next_page] and [random_delay] are not called, so such a page
    never ends the run as the last page. *)
Theorem zero_save_interval_step
  (self : crawler) (max_empty_pages : Z) (io : page_io) (s : loop_state) :
  recorded self io (page_num s) <> [] ->
  let r := crawl_step self max_empty_pages 0 io s in
  snd r = RUNNING
  /\ errors (stats (fst r)) = errors (stats s) + 1
  /\ pages_crawled (stats (fst r)) = pages_crawled (stats s) + 1
  /\ page_num (fst r) = page_num s + 1
  /\ all_data (fst r) = (all_data s ++ recorded self io (page_num s))%list
  /\ saved_batches (trace (fst r)) = saved_batches (trace s)
  /\ next_checks (trace (fst r)) = next_checks (trace s)
  /\ delays (trace (fst r)) = delays (trace s).
Proof.
  cbv zeta. unfold recorded. unfold_step. simp_step.
  destruct (build_url self (page_num s)) as [u|[|]];
    simp_step; try (intros H; now contradiction H).
  generalize (fetch_page_events (max_retries self) (io_get io) u 0).
  destruct (fetch_page (max_retries self) (io_get io) u 0)
    as [[[[|? ?]|]|[|]] evs];
    cbn [snd]; intros Hf;
    pose proof (saved_batches_fetch _ Hf) as Hs;
    apply fetch_events_only in Hf as [Hn Hd]; break_step.
  all: intros Hrec; try (now contradiction Hrec); try lia.
  all: rewrite ?saved_batches_app, ?next_checks_app, ?delays_app, ?Hs, ?Hn, ?Hd;
    cbn; rewrite ?app_nil_r; repeat split; lia.
Qed.

Lemma zero_save_interval_step_witness :
  snd (crawl_step example_crawler 3 0 (page_with one_link false)
         (initial_state fresh_stats 1)) = RUNNING
  /\ errors (stats (fst (crawl_step example_crawler 3 0
                           (page_with one_link false)
                           (initial_state fresh_stats 1)))) = 0 + 1.
Proof.
  assert (Hrec : recorded example_crawler (page_with one_link false)
                   (page_num (initial_state fresh_stats 1)) <> [])
    by (vm_compute; discriminate).
  pose proof (zero_save_interval_step example_crawler 3
                (page_with one_link false) (initial_state fresh_stats 1) Hrec)
    as [Hr [He _]].
  split; [exact Hr | exact He].
Defined.

(** ** The statistics of a run *)

Lemma step_stats_bounds (self : crawler) (m si : Z) (io : page_io)
  (s : loop_state) :
  total_data (stats (fst (crawl_step self m si io s)))
  = total_data (stats s) + total_records (recorded self io (page_num s))
  /\ pages_crawled (stats s) + len (recorded self io (page_num s))
     <= pages_crawled (stats (fst (crawl_step self m si io s)))
  /\ pages_crawled (stats (fst (crawl_step self m si io s)))
     - len (recorded self io (page_num s)) - pages_crawled (stats s)
     <= errors (stats (fst (crawl_step self m si io s))) - errors (stats s)
  /\ errors (stats s) <= errors (stats (fst (crawl_step self m si io s)))
     <= errors (stats s) + 1.
Proof.
  unfold recorded. unfold_step. break_step.
  all: cbn [total_records record_count data articles links andb is_nil];
    unfold len; cbn [List.length]; repeat split; lia.
Qed.

(** X10.  In a run of a fresh crawler, whatever the collaborators
    answer: [total_data] is the number of records of the buffered
    results; [pages_crawled] is at least the number of buffered results,
    and exceeds it by at most the number of errors counted; and no more
    than one error is counted per iteration. *)
Theorem stats_against_buffer (self : crawler) (max_empty_pages save_interval : Z)
  (start_page : Z) (ios : list page_io) :
  let s := fst (crawl_loop self max_empty_pages save_interval ios
                  (initial_state fresh_stats start_page)) in
  total_data (stats s) = total_records (all_data s)
  /\ len (all_data s) <= pages_crawled (stats s)
     <= len (all_data s) + errors (stats s)
  /\ 0 <= errors (stats s) <= len ios.
Proof.
  cbv zeta.
  assert (Hloop : forall s0,
    let s := fst (crawl_loop self max_empty_pages save_interval ios s0) in
    total_data (stats s) - total_records (all_data s)
    = total_data (stats s0) - total_records (all_data s0)
    /\ pages_crawled (stats s0) - len (all_data s0)
       <= pages_crawled (stats s) - len (all_data s)
    /\ pages_crawled (stats s) - len (all_data s) - errors (stats s)
       <= pages_crawled (stats s0) - len (all_data s0) - errors (stats s0)
    /\ errors (stats s0) <= errors (stats s) <= errors (stats s0) + len ios).
  { cbv zeta. induction ios as [|io ios IH]; intros s0.
    - cbn. unfold len. cbn. lia.
    - rewrite crawl_loop_cons, len_cons.
      pose proof (step_stats_bounds self max_empty_pages save_interval io s0)
        as [Ht [Hp [Hx He]]].
      pose proof (step_buffer self max_empty_pages save_interval io s0) as Hb.
      assert (Hpos : 0 <= len ios) by (unfold len; lia).
      assert (Hstep :
        let s := fst (crawl_step self max_empty_pages save_interval io s0) in
        total_data (stats s) - total_records (all_data s)
        = total_data (stats s0) - total_records (all_data s0)
        /\ pages_crawled (stats s0) - len (all_data s0)
           <= pages_crawled (stats s) - len (all_data s)
        /\ pages_crawled (stats s) - len (all_data s) - errors (stats s)
           <= pages_crawled (stats s0) - len (all_data s0) - errors (stats s0)
        /\ errors (stats s0) <= errors (stats s) <= errors (stats s0) + 1).
      { cbv zeta. rewrite Hb, len_app, total_records_app. lia. }
      cbv zeta in Hstep.
      destruct (crawl_step self max_empty_pages save_interval io s0)
        as [s' st]. cbn [fst snd] in *.
      destruct st; cbn [fst]; try lia.
      specialize (IH s'). lia. }
  specialize (Hloop (initial_state fresh_stats start_page)).
  cbv zeta in Hloop. cbn in Hloop. lia.
Qed.

(** ** Leaving the loop *)

(** Where the cursor stands when an iteration leaves the loop. *)
Lemma step_stop_cursor (self : crawler) (m si : Z) (io : page_io)
  (s : loop_state) :
  (snd (crawl_step self m si io s) = TERMINATED_SAFETY_LIMIT ->
   page_num (fst (crawl_step self m si io s)) = page_num s + 1
   /\ page_num s + 1 > 10000000)
  /\ (snd (crawl_step self m si io s) <> RUNNING ->
      snd (crawl_step self m si io s) <> TERMINATED_SAFETY_LIMIT ->
      page_num (fst (crawl_step self m si io s)) = page_num s).
Proof.
  unfold_step. break_step.
  all: split;
    [ intros Hs; try discriminate Hs; (split; [reflexivity | lia])
    | intros Hr Hs; try (now contradiction Hr); try (now contradiction Hs);
      reflexivity ].
Qed.

(** X11.  On a run that starts at or below the limit of 10000000 pages
    and in which no fetch fails and no error is counted, the limit
    holds: no page above it is worked on, and the cursor passes it (by
    one) exactly when the run ends in [TERMINATED_SAFETY_LIMIT]. *)
Theorem page_limit_on_quiet_run
  (self : crawler) (max_empty_pages save_interval : Z)
  (ios : list page_io) (s : loop_state) :
  quiet_run self max_empty_pages save_interval ios s ->
  page_num s <= 10000000 ->
  Forall (fun n => n <= 10000000)
         (visited self max_empty_pages save_interval ios s)
  /\ page_num (fst (crawl_loop self max_empty_pages save_interval ios s))
     <= 10000001
  /\ (page_num (fst (crawl_loop self max_empty_pages save_interval ios s))
      = 10000001
      <-> snd (crawl_loop self max_empty_pages save_interval ios s)
          = TERMINATED_SAFETY_LIMIT).
Proof.
  revert s. induction ios as [|io ios IH]; intros s Hq Hs.
  - cbn. repeat split; try lia; [constructor | intros H; discriminate H].
  - cbn [quiet_run] in Hq. destruct Hq as [[Hk He] Hrest].
    rewrite crawl_loop_cons. cbn [visited].
    pose proof (page_limit_checked_after_delay self max_empty_pages
                  save_interval io s) as Hlim.
    pose proof (step_stop_cursor self max_empty_pages save_interval io s)
      as [Hsafe Hother].
    destruct (crawl_step self max_empty_pages save_interval io s)
      as [s' st]. cbn [fst snd] in *.
    destruct st; cbn [fst snd].
    + specialize (Hlim eq_refl He Hk).
      destruct (IH s' Hrest Hlim) as [Hv [Hb Hiff]].
      split; [constructor; assumption | split; assumption].
    + rewrite Hother by discriminate.
      split; [repeat constructor; assumption | split; [lia |]].
      split; [lia | intros H; discriminate H].
    + rewrite Hother by discriminate.
      split; [repeat constructor; assumption | split; [lia |]].
      split; [lia | intros H; discriminate H].
    + destruct (Hsafe eq_refl) as [Hp Hgt].
      split; [repeat constructor; assumption | split; [lia |]].
      split; [reflexivity | lia].
    + rewrite Hother by discriminate.
      split; [repeat constructor; assumption | split; [lia |]].
      split; [lia | intros H; discriminate H].
Qed.

Lemma page_limit_on_quiet_run_witness :
  Forall (fun n => n <= 10000000)
         (visited example_crawler 3 10
            [page_with one_link true; page_with one_link true;
             page_with one_link true]
            (initial_state fresh_stats 9999999))
  /\ snd (crawl_loop example_crawler 3 10
            [page_with one_link true; page_with one_link true;
             page_with one_link true]
            (initial_state fresh_stats 9999999)) = TERMINATED_SAFETY_LIMIT.
Proof.
  assert (Hq : quiet_run example_crawler 3 10
                 [page_with one_link true; page_with one_link true;
                  page_with one_link true]
                 (initial_state fresh_stats 9999999)).
  { vm_compute. repeat split; discriminate. }
  assert (Hs : page_num (initial_state fresh_stats 9999999) <= 10000000)
    by (cbn; lia).
  pose proof (page_limit_on_quiet_run example_crawler 3 10
                [page_with one_link true; page_with one_link true;
                 page_with one_link true]
                (initial_state fresh_stats 9999999) Hq Hs) as [Hv [_ Hiff]].
  split; [exact Hv |]. apply Hiff. vm_compute. reflexivity.
Defined.

(** What is known when an iteration ends in [TERMINATED_LAST_PAGE]. *)
Lemma last_page_inversion (self : crawler) (m si : Z) (io : page_io)
  (s : loop_state) :
  snd (crawl_step self m si io s) = TERMINATED_LAST_PAGE ->
  io_has_next io = Returns false
  /\ (page_kind_of self io (page_num s) = NoRecords
      \/ page_kind_of self io (page_num s) = HasRecords)
  /\ errors (stats (fst (crawl_step self m si io s))) = errors (stats s)
  /\ page_num (fst (crawl_step self m si io s)) = page_num s
  /\ next_checks (trace (fst (crawl_step self m si io s)))
     = next_checks (trace s) + 1
  /\ delays (trace (fst (crawl_step self m si io s))) = delays (trace s).
Proof.
  unfold page_kind_of. unfold_step. simp_step.
  destruct (build_url self (page_num s)) as [u|[|]];
    simp_step; try (intros H; discriminate H).
  generalize (fetch_page_events (max_retries self) (io_get io) u 0).
  destruct (fetch_page (max_retries self) (io_get io) u 0)
    as [[[[|? ?]|]|[|]] evs];
    cbn [snd]; intros Hf;
    apply fetch_events_only in Hf as [Hn Hd]; break_step.
  all: intros Hlast; try discriminate Hlast.
  all: rewrite ?next_checks_app, ?delays_app, ?Hn, ?Hd;
    repeat split; auto; cbn; lia.
Qed.

(** X12.  The loop is left as [TERMINATED_LAST_PAGE] only when
    [has_next_page] has answered [False] for a page that was fetched and
    parsed: the page has been through the record check (its result is
    in the buffer if it has records), no error is counted, the cursor
    stays on that page, and [random_delay] is not called. *)
Theorem last_page_step
  (self : crawler) (max_empty_pages save_interval : Z)
  (io : page_io) (s : loop_state) :
  let r := crawl_step self max_empty_pages save_interval io s in
  snd r = TERMINATED_LAST_PAGE ->
  io_has_next io = Returns false
  /\ (page_kind_of self io (page_num s) = NoRecords
      \/ page_kind_of self io (page_num s) = HasRecords)
  /\ all_data (fst r) = (all_data s ++ recorded self io (page_num s))%list
  /\ errors (stats (fst r)) = errors (stats s)
  /\ page_num (fst r) = page_num s
  /\ next_checks (trace (fst r)) = next_checks (trace s) + 1
  /\ delays (trace (fst r)) = delays (trace s).
Proof.
  cbv zeta. intros Hlast.
  destruct (last_page_inversion _ _ _ _ _ Hlast) as [Hn [Hk [He [Hp [Hc Hd]]]]].
  repeat split; try assumption. apply step_buffer.
Qed.

Lemma last_page_step_witness :
  io_has_next (page_with one_link false) = Returns false
  /\ page_num (fst (crawl_step example_crawler 3 10 (page_with one_link false)
                      (initial_state fresh_stats 4))) = 4.
Proof.
  assert (Hl : snd (crawl_step example_crawler 3 10 (page_with one_link false)
                      (initial_state fresh_stats 4)) = TERMINATED_LAST_PAGE)
    by reflexivity.
  pose proof (last_page_step example_crawler 3 10 (page_with one_link false)
                (initial_state fresh_stats 4) Hl) as [Hn [_ [_ [_ [Hp _]]]]].
  split; [exact Hn | exact Hp].
Defined.

(** ** Checkpoints *)

Lemma str_inj (n n' : Z) : str n = str n' -> n = n'.
Proof.
  unfold str. intros H. apply DecimalZ.to_int_inj.
  assert (Hnil : forall z, Z.to_int z <> Decimal.Pos Decimal.Nil
                           /\ Z.to_int z <> Decimal.Neg Decimal.Nil).
  { intros [|p|p]; cbn; split; try discriminate;
      intros E; inversion E as [E'];
      now apply DecimalPos.Unsigned.to_uint_nonnil in E'. }
  assert (Hsome : Some (Z.to_int n) = Some (Z.to_int n')).
  { rewrite <- (NilZero.isi (Z.to_int n)) by apply Hnil.
    rewrite <- (NilZero.isi (Z.to_int n')) by apply Hnil.
    now rewrite H. }
  now inversion Hsome.
Qed.

Lemma length_append (a b : string) :
  String.length (a ++ b) = (String.length a + String.length b)%nat.
Proof. induction a as [|c a IH]; cbn; [reflexivity | now rewrite IH]. Qed.

Lemma append_inj_l (a b c : string) : a ++ b = a ++ c -> b = c.
Proof.
  induction a as [|x a IH]; cbn; intros H; [assumption |].
  inversion H. auto.
Qed.

Lemma append_inj_r (a b c : string) : a ++ c = b ++ c -> a = b.
Proof.
  revert b. induction a as [|x a IH]; intros [|y b] H; cbn in H.
  - reflexivity.
  - apply (f_equal String.length) in H. cbn in H.
    rewrite length_append in H. lia.
  - apply (f_equal String.length) in H. cbn in H.
    rewrite length_append in H. lia.
  - inversion H. f_equal. auto.
Qed.

Lemma save_filename_inj (l l' format : string) :
  save_filename l format = save_filename l' format -> l = l'.
Proof.
  unfold save_filename. intros H. apply append_inj_l in H.
  rewrite <- !append_assoc in H.
  apply append_inj_r, append_inj_r in H. exact H.
Qed.

Lemma batch_label_inj (si n n' : Z) :
  si <> 0 -> n mod si = 0 -> n' mod si = 0 ->
  batch_label si n = batch_label si n' -> n = n'.
Proof.
  unfold batch_label. intros Hsi Hn Hn' H.
  apply append_inj_l, str_inj in H.
  rewrite (Z.div_mod n si), (Z.div_mod n' si) by assumption. lia.
Qed.

(** The last [si] elements of a buffer that ends with [e]. *)
Lemma slice_last (si : Z) (l : list entry) (e : entry) :
  1 <= si ->
  exists front,
    slice_from (- si) (l ++ [e]) = (front ++ [e])%list
    /\ len (slice_from (- si) (l ++ [e])) <= si.
Proof.
  intros Hsi. unfold slice_from.
  destruct (Z.ltb_spec (- si) 0) as [_ | Hge]; [| lia].
  set (k := Z.to_nat (Z.max (len (l ++ [e]) + - si) 0)).
  assert (Hk : (k <= List.length l)%nat).
  { unfold k, len. rewrite length_app. cbn [List.length]. lia. }
  exists (skipn k l).
  rewrite skipn_app.
  replace (k - List.length l)%nat with 0%nat by lia.
  cbn [skipn]. split; [reflexivity |].
  unfold len. rewrite length_app, length_skipn. cbn [List.length].
  unfold k, len in *. rewrite length_app in *. cbn [List.length] in *. lia.
Qed.

Lemma recorded_single (self : crawler) (io : page_io) (n : Z) :
  recorded self io n <> [] ->
  exists e, recorded self io n = [e] /\ page e = n.
Proof.
  intros H. destruct (recorded self io n) as [|e [|e' l]] eqn:E.
  - now contradiction H.
  - exists e. split; [reflexivity |].
    apply (recorded_page self io n). rewrite E. now left.
  - exfalso. revert E. unfold recorded.
    repeat match goal with
           | |- context [match ?x with _ => _ end] => destruct x
           end; discriminate.
Qed.

Lemma checkpoints_weaken (si lo hi hi' : Z) (ns : list Z)
  (bs : list (string * list entry)) :
  hi <= hi' -> checkpoints si lo hi ns bs -> checkpoints si lo hi' ns bs.
Proof.
  intros Hle [Hf Hnd]. split; [| assumption].
  clear Hnd. induction Hf as [|n b ns bs Hb _ IH]; [constructor |].
  constructor; [| exact IH].
  destruct Hb as [H1 [H2 [H3 [H4 H5]]]].
  split; [assumption | split; [assumption | split; [lia | split; assumption]]].
Qed.

Lemma checkpoints_pages (si lo hi : Z) (ns : list Z)
  (bs : list (string * list entry)) :
  checkpoints si lo hi ns bs -> Forall (fun n => n < hi) ns.
Proof.
  intros [Hf _]. induction Hf as [|n b ns bs Hb _ IH]; [constructor |].
  constructor; [| exact IH].
  destruct Hb as [_ [_ [H _]]]. lia.
Qed.

(** An iteration keeps the batches of the trace in the shape of
    [checkpoints], below the page after its own. *)
Lemma step_checkpoints (self : crawler) (m si lo : Z) (io : page_io)
  (s : loop_state) (ns : list Z) :
  lo <= page_num s ->
  checkpoints si lo (page_num s) ns (saved_batches (trace s)) ->
  exists ns',
    checkpoints si lo (page_num s + 1) ns'
      (saved_batches (trace (fst (crawl_step self m si io s)))).
Proof.
  intros Hlo Hc.
  pose proof (step_saves self m si io s) as Hs.
  pose proof (step_buffer self m si io s) as Hb.
  destruct Hs as [-> | [Hsi [Hmod [Hrec ->]]]].
  - exists ns. apply checkpoints_weaken with (hi := page_num s); [lia | exact Hc].
  - exists (ns ++ [page_num s])%list.
    pose proof (checkpoints_pages _ _ _ _ _ Hc) as Hbelow.
    apply checkpoints_weaken with (hi' := page_num s + 1) in Hc; [| lia].
    destruct Hc as [Hf Hnd]. split.
    + apply Forall2_app; [exact Hf |].
      constructor; [| constructor].
      cbn [fst snd]. repeat split; try assumption; try lia.
      intros Hpos. rewrite Hb.
      destruct (recorded_single self io (page_num s) Hrec) as [e [-> He]].
      destruct (slice_last si (all_data s) e Hpos) as [front [Hfront Hlen]].
      exists front, e. repeat split; assumption.
    + apply NoDup_snoc; [assumption |].
      intros Hin. rewrite Forall_forall in Hbelow.
      apply Hbelow in Hin. lia.
Qed.

Lemma loop_checkpoints (self : crawler) (m si lo : Z) (ios : list page_io) :
  forall (s : loop_state) (ns : list Z),
    lo <= page_num s ->
    checkpoints si lo (page_num s) ns (saved_batches (trace s)) ->
    exists ns',
      checkpoints si lo (page_num (fst (crawl_loop self m si ios s)) + 1) ns'
        (saved_batches (trace (fst (crawl_loop self m si ios s)))).
Proof.
  induction ios as [|io ios IH]; intros s ns Hlo Hc.
  - cbn. exists ns.
    apply checkpoints_weaken with (hi := page_num s); [lia | exact Hc].
  - rewrite crawl_loop_cons.
    destruct (step_checkpoints self m si lo io s ns Hlo Hc) as [ns' Hc'].
    pose proof (step_page_num self m si io s) as [Hrun Hbound].
    destruct (crawl_step self m si io s) as [s' st]. cbn [fst snd] in *.
    destruct st; cbn [fst].
    + specialize (Hrun eq_refl). apply (IH s' ns'); [lia |].
      rewrite Hrun. exact Hc'.
    + exists ns'. apply checkpoints_weaken with (hi := page_num s + 1);
        [lia | exact Hc'].
    + exists ns'. apply checkpoints_weaken with (hi := page_num s + 1);
        [lia | exact Hc'].
    + exists ns'. apply checkpoints_weaken with (hi := page_num s + 1);
        [lia | exact Hc'].
    + exists ns'. apply checkpoints_weaken with (hi := page_num s + 1);
        [lia | exact Hc'].
Qed.

(** The batches of a finished run: periodic ones, then [final] with the
    buffer when it is not empty. *)
Lemma crawl_checkpoints (self : crawler) (m si : Z) (st : stats_t)
  (start : Z) (ios : list page_io) (s : loop_state) (why : status) :
  crawl self m si st start ios = Some (s, why) ->
  exists ns periodic,
    checkpoints si start (page_num s + 1) ns periodic
    /\ saved_batches (trace s)
       = (periodic ++ if is_nil (all_data s) then []
                      else [("final", all_data s)])%list.
Proof.
  intros H. apply crawl_returns in H as [-> [_ _]].
  set (s' := fst (crawl_loop self m si ios (initial_state st start))).
  destruct (final_save_batches s') as [Hd Hb].
  destruct (loop_checkpoints self m si start ios (initial_state st start) [])
    as [ns Hc]; [cbn; lia | split; constructor |].
  exists ns, (saved_batches (trace s')). split.
  - replace (page_num (final_save s')) with (page_num s'); [exact Hc |].
    unfold final_save. destruct (is_nil (all_data s')); reflexivity.
  - rewrite Hb, Hd. reflexivity.
Qed.

(** X13.  With [save_interval >= 1], every batch handed to [save_data]
    in a run is either the final one, which is the whole buffer, or a
    periodic one saved on a page [n] that is a multiple of
    [save_interval]: it is labelled [batch_(n // save_interval)], it
    holds at least one and at most [save_interval] results, and its
    last result is the one of page [n]. *)
Theorem periodic_batch_shape
  (self : crawler) (max_empty_pages save_interval : Z) (st : stats_t)
  (start_page : Z) (ios : list page_io) (s : loop_state) (why : status) :
  1 <= save_interval ->
  crawl self max_empty_pages save_interval st start_page ios = Some (s, why) ->
  forall label batch,
    In (label, batch) (saved_batches (trace s)) ->
    (label = "final" /\ batch = all_data s)
    \/ exists n front e,
         start_page <= n /\ n mod save_interval = 0
         /\ label = batch_label save_interval n
         /\ batch = (front ++ [e])%list /\ page e = n
         /\ len batch <= save_interval.
Proof.
  intros Hsi Hrun label batch Hin.
  destruct (crawl_checkpoints _ _ _ _ _ _ _ _ Hrun)
    as [ns [periodic [[Hf _] Hb]]].
  rewrite Hb in Hin. apply in_app_or in Hin as [Hin | Hin].
  - right. clear Hb. induction Hf as [|n b ns bs Hn _ IH]; [contradiction |].
    destruct Hin as [-> | Hin]; [| auto].
    cbn [fst snd] in Hn. destruct Hn as [_ [Hmod [Hlo [Hl Hshape]]]].
    destruct (Hshape Hsi) as [front [e [Hbatch [Hp Hlen]]]].
    exists n, front, e. repeat split; try assumption; lia.
  - left. destruct (is_nil (all_data s)); [contradiction |].
    destruct Hin as [Hin | []]. inversion Hin. split; reflexivity.
Qed.

Lemma periodic_batch_shape_witness :
  exists s,
    crawl example_crawler 3 2 fresh_stats 1 three_pages
    = Some (s, TERMINATED_LAST_PAGE)
    /\ forall label batch,
         In (label, batch) (saved_batches (trace s)) ->
         label = "final" \/ len batch <= 2.
Proof.
  assert (Hsi : 1 <= 2) by lia.
  destruct (crawl example_crawler 3 2 fresh_stats 1 three_pages)
    as [[s why]|] eqn:E; [| vm_compute in E; discriminate E].
  assert (Hwhy : why = TERMINATED_LAST_PAGE)
    by (vm_compute in E; inversion E; reflexivity).
  subst why. exists s. split; [reflexivity |].
  intros label batch Hin.
  destruct (periodic_batch_shape example_crawler 3 2 fresh_stats 1
              three_pages s TERMINATED_LAST_PAGE Hsi E label batch Hin)
    as [[Hl _] | [n [front [e [_ [_ [_ [_ [_ Hlen]]]]]]]]].
  - left. exact Hl.
  - right. exact Hlen.
Defined.

Lemma NoDup_map_inj {A B : Type} (f : A -> B) (l : list A) :
  (forall x y, f x = f y -> x = y) -> NoDup l -> NoDup (map f l).
Proof.
  intros Hf H. induction H as [|x l Hx _ IH]; cbn [map]; constructor;
    [| assumption].
  intros Hin. apply in_map_iff in Hin as [y [Hy Hin]].
  apply Hf in Hy. subst y. contradiction.
Qed.

Lemma checkpoint_labels_distinct (si lo hi : Z) (ns : list Z)
  (bs : list (string * list entry)) :
  checkpoints si lo hi ns bs ->
  NoDup (map fst bs)
  /\ forall l, In l (map fst bs) -> exists n, l = batch_label si n.
Proof.
  intros [Hf Hnd]. induction Hf as [|n b ns bs Hn Hf IH].
  - split; [constructor | intros l []].
  - inversion Hnd as [|? ? Hnotin Hnd']; subst.
    destruct (IH Hnd') as [IHnd IHl].
    destruct Hn as [Hsi [Hmod [_ [Hl _]]]].
    split.
    + cbn [map]. constructor; [| assumption].
      intros Hin. apply Hnotin. clear IH IHnd IHl Hnd Hnd' Hnotin.
      induction Hf as [|n' b' ns bs Hn' _ IH']; [contradiction |].
      destruct Hn' as [_ [Hmod' [_ [Hl' _]]]].
      destruct Hin as [Heq | Hin]; [left | right; auto].
      rewrite Hl, Hl' in Heq. symmetry.
      now apply (batch_label_inj si n n').
    + intros l [<- | Hin]; [exists n; assumption | auto].
Qed.

(** X14.  The files written during a run have pairwise distinct names:
    no checkpoint of the run overwrites another one, and the final file
    overwrites none of them. *)
Theorem checkpoint_files_distinct
  (self : crawler) (max_empty_pages save_interval : Z) (st : stats_t)
  (start_page : Z) (ios : list page_io) (s : loop_state) (why : status) :
  crawl self max_empty_pages save_interval st start_page ios = Some (s, why) ->
  NoDup (written_files (trace s)).
Proof.
  intros Hrun.
  destruct (crawl_checkpoints _ _ _ _ _ _ _ _ Hrun)
    as [ns [periodic [Hc Hb]]].
  destruct (checkpoint_labels_distinct _ _ _ _ _ Hc) as [Hnd Hl].
  assert (Hlabels : NoDup (map fst (saved_batches (trace s)))).
  { rewrite Hb, map_app. destruct (is_nil (all_data s)).
    - cbn [map]. now rewrite app_nil_r.
    - cbn [map fst]. apply NoDup_snoc; [assumption |].
      intros Hin. apply Hl in Hin as [n Hn]. discriminate Hn. }
  unfold written_files.
  rewrite <- (map_map fst (fun l => save_filename l "json")).
  apply NoDup_map_inj; [| assumption].
  intros l l'. apply save_filename_inj.
Qed.

Lemma checkpoint_files_distinct_witness :
  exists s,
    crawl example_crawler 3 1 fresh_stats 1 three_pages
    = Some (s, TERMINATED_LAST_PAGE)
    /\ NoDup (written_files (trace s))
    /\ written_files (trace s)
       = ["page_batch_1_data.json"; "page_batch_2_data.json";
          "page_batch_3_data.json"; "page_final_data.json"].
Proof.
  destruct (crawl example_crawler 3 1 fresh_stats 1 three_pages)
    as [[s why]|] eqn:E; [| vm_compute in E; discriminate E].
  pose proof (checkpoint_files_distinct example_crawler 3 1 fresh_stats 1
                three_pages s why E) as Hnd.
  vm_compute in E. inversion E; subst. eexists. split; [reflexivity |].
  split; [exact Hnd | reflexivity].
Defined.

(** ** Requests and sleeps of a run *)

Lemma sleeps_app (a b : list event) : sleeps (a ++ b) = (sleeps a ++ sleeps b)%list.
Proof.
  induction a as [|e a IH]; [reflexivity |].
  destruct e; cbn [sleeps app]; rewrite IH; reflexivity.
Qed.

Lemma total_sleep_app (a b : list event) :
  total_sleep (a ++ b) = total_sleep a + total_sleep b.
Proof.
  unfold total_sleep. rewrite sleeps_app.
  induction (sleeps a) as [|x l IH]; cbn [app fold_right]; lia.
Qed.

(** The requests and sleeps of an iteration are those of its call of
    [fetch_page]. *)
Lemma step_requests (self : crawler) (m si : Z) (io : page_io) (s : loop_state) :
  exists evs,
    (evs = [] \/ exists u, evs = snd (fetch_page (max_retries self) (io_get io) u 0))
    /\ requests (trace (fst (crawl_step self m si io s)))
       = requests (trace s) + requests evs
    /\ total_sleep (trace (fst (crawl_step self m si io s)))
       = total_sleep (trace s) + total_sleep evs.
Proof.
  unfold_step. simp_step.
  destruct (build_url self (page_num s)) as [u|[|]]; simp_step;
    try (exists []; split; [now left | cbn; split; lia]).
  exists (snd (fetch_page (max_retries self) (io_get io) u 0)).
  split; [right; exists u; reflexivity |].
  destruct (fetch_page (max_retries self) (io_get io) u 0)
    as [[[[|? ?]|]|[|]] evs]; cbn [snd]; break_step.
  all: rewrite ?requests_app, ?total_sleep_app; cbn; split; lia.
Qed.

(** X15.  A run sends at most [max(0, max_retries) + 1] requests and
    sleeps at most [2 ^ max(0, max_retries) - 1] seconds of backoff for
    each page it works on. *)
Theorem run_request_budget
  (self : crawler) (max_empty_pages save_interval : Z)
  (ios : list page_io) (s : loop_state) :
  let s' := fst (crawl_loop self max_empty_pages save_interval ios s) in
  let pages := len (visited self max_empty_pages save_interval ios s) in
  requests (trace s') - requests (trace s)
  <= (Z.max 0 (max_retries self) + 1) * pages
  /\ total_sleep (trace s') - total_sleep (trace s)
     <= (2 ^ Z.max 0 (max_retries self) - 1) * pages.
Proof.
  cbv zeta. revert s. induction ios as [|io ios IH]; intros s.
  - cbn. unfold len. cbn. lia.
  - rewrite crawl_loop_cons. cbn [visited].
    destruct (step_requests self max_empty_pages save_interval io s)
      as [evs [Hevs [Hr Ht]]].
    assert (Hb : requests evs <= Z.max 0 (max_retries self) + 1
                 /\ total_sleep evs <= 2 ^ Z.max 0 (max_retries self) - 1).
    { assert (Hpow : 0 < 2 ^ Z.max 0 (max_retries self))
        by (apply Z.pow_pos_nonneg; lia).
      destruct Hevs as [-> | [u ->]]; [cbn; lia |].
      destruct (fetch_page_budget_from (max_retries self) (io_get io) u 0)
        as [Hk [Hq Hs]]; [lia |].
      rewrite Z.sub_0_r in Hk. cbn [Z.add] in Hs.
      split; [lia |]. rewrite Hs.
      assert (2 ^ retry_events (snd (fetch_page (max_retries self) (io_get io) u 0))
              <= 2 ^ Z.max 0 (max_retries self))
        by (apply Z.pow_le_mono_r; lia).
      lia. }
    destruct Hb as [Hbr Hbt].
    assert (Hpos : 0 <= Z.max 0 (max_retries self) + 1) by lia.
    assert (Hpos' : 0 <= 2 ^ Z.max 0 (max_retries self) - 1).
    { assert (0 < 2 ^ Z.max 0 (max_retries self))
        by (apply Z.pow_pos_nonneg; lia). lia. }
    destruct (crawl_step self max_empty_pages save_interval io s)
      as [s1 st]. cbn [fst snd] in *.
    destruct st; cbn [fst]; rewrite len_cons.
    + destruct (IH s1) as [IHr IHt]. split; nia.
    + unfold len; cbn [List.length]. split; nia.
    + unfold len; cbn [List.length]. split; nia.
    + unfold len; cbn [List.length]. split; nia.
    + unfold len; cbn [List.length]. split; nia.
Qed.

(** ** More on the URL *)

(** X16.  A template with a [?page=] parameter that is not written
    [page=1] (and without [{page}]) resolves to itself for every page
    number: the crawl asks for the same URL on every page. *)
Theorem page_parameter_not_one (c : crawler) (n : Z) :
  contains "{page}" (base_url c) = false ->
  contains "?page=" (base_url c) = true ->
  contains "page=1" (base_url c) = false ->
  build_url c n = Returns (base_url c).
Proof.
  intros Hf Hq H1. unfold build_url. rewrite Hf, Hq.
  unfold replace. now rewrite replace_absent.
Qed.

Lemma page_parameter_not_one_witness :
  build_url second_page_crawler 7 = Returns "https://x/list?page=2".
Proof.
  assert (Hf : contains "{page}" (base_url second_page_crawler) = false)
    by reflexivity.
  assert (Hq : contains "?page=" (base_url second_page_crawler) = true)
    by reflexivity.
  assert (H1 : contains "page=1" (base_url second_page_crawler) = false)
    by reflexivity.
  exact (page_parameter_not_one second_page_crawler 7 Hf Hq H1).
Defined.

(** The URL of a template of one of the three shapes. *)
Lemma page_template_url (c : crawler) :
  page_template c ->
  exists pre post, forall n, build_url c n = Returns (pre ++ str n ++ post).
Proof.
  intros [[pre [post [E [Hpre Hpost]]]]
         | [[pre [post [E [Hno [Hpre Hpost]]]]] | [Hno Hq]]].
  - exists pre, post. intros n. unfold build_url.
    rewrite E, contains_app.
    rewrite format_placeholder with (post' := post);
      [reflexivity | assumption | now apply format_text].
  - exists (pre ++ "?page="), post. intros n.
    assert (Hq : contains "?page=" (base_url c) = true)
      by (rewrite E; apply (contains_app "?page=" pre ("1" ++ post))).
    unfold build_url. rewrite Hno, Hq, E.
    replace (pre ++ "?page=1" ++ post)
      with ((pre ++ "?") ++ "page=1" ++ post)
      by (now rewrite append_assoc).
    rewrite replace_page1.
    + rewrite !append_assoc. reflexivity.
    + rewrite has_char_app. rewrite Hpre. reflexivity.
    + assumption.
  - exists (base_url c ++ "?page="), EmptyString. intros n.
    unfold build_url. rewrite Hno, Hq.
    rewrite append_assoc, append_nil_r. reflexivity.
Qed.

(** X17.  For a template of one of the three shapes that show the page
    number, two different page numbers never resolve to the same URL. *)
Theorem build_url_injective (c : crawler) (n n' : Z) :
  page_template c ->
  build_url c n = build_url c n' ->
  n = n'.
Proof.
  intros Ht H. destruct (page_template_url c Ht) as [pre [post Hurl]].
  rewrite !Hurl in H. inversion H as [H'].
  apply append_inj_l in H'. apply append_inj_r in H'.
  now apply str_inj.
Qed.

Lemma build_url_injective_witness :
  build_url example_crawler 12 <> build_url example_crawler 21.
Proof.
  assert (Ht : page_template example_crawler).
  { left. exists "https://x/p?page=", EmptyString.
    split; [reflexivity | split; reflexivity]. }
  intros H.
  pose proof (build_url_injective example_crawler 12 21 Ht H) as E.
  discriminate E.
Defined.

(** ** The default parser *)

Lemma parse_links_eq (anchors : list item) : parse_links anchors = anchors.
Proof.
  unfold parse_links.
  assert (H : forall acc,
    fold_left (fun links a => links ++ [(fst a, snd a)])%list anchors acc
    = (acc ++ anchors)%list).
  { induction anchors as [|[t h] anchors IH]; intros acc; cbn [fold_left].
    - now rewrite app_nil_r.
    - rewrite IH, <- app_assoc. reflexivity. }
  apply (H []).
Qed.

Lemma parse_articles_eq (tags : list article_tag) :
  parse_articles tags = flat_map complete_article tags.
Proof.
  unfold parse_articles.
  assert (H : forall acc,
    fold_left
      (fun articles t =>
         match h2_text t, content_text t with
         | Some title, Some content => articles ++ [(title, content)]
         | _, _ => articles
         end)%list tags acc
    = (acc ++ flat_map complete_article tags)%list).
  { induction tags as [|t tags IH]; intros acc; cbn [fold_left flat_map].
    - now rewrite app_nil_r.
    - rewrite IH. unfold complete_article at 2.
      destruct (h2_text t), (content_text t); cbn [app];
        rewrite <- ?app_assoc; reflexivity. }
  apply (H []).
Qed.

Lemma complete_articles_length (tags : list article_tag) :
  len (flat_map complete_article tags) <= len tags.
Proof.
  unfold len. induction tags as [|t tags IH]; cbn [flat_map List.length];
    [lia |].
  rewrite length_app. unfold complete_article at 1.
  destruct (h2_text t), (content_text t); cbn [List.length]; lia.
Qed.

(** X18.  The default [parse_page] always returns both collections:
    the links are the anchors that have an [href], one for one and in
    document order; the articles are the [article] elements that have
    both an [h2] and a [div] of class [content], in document order, and
    an element that lacks one of the two is left out without an error. *)
Theorem parse_page_records (doc : document) :
  links (parse_page doc) = Some (doc_anchors doc)
  /\ articles (parse_page doc)
     = Some (flat_map complete_article (doc_articles doc))
  /\ len (flat_map complete_article (doc_articles doc))
     <= len (doc_articles doc)
  /\ (Forall (fun t => h2_text t <> None /\ content_text t <> None)
             (doc_articles doc) ->
      len (flat_map complete_article (doc_articles doc))
      = len (doc_articles doc)).
Proof.
  unfold parse_page. cbn [links articles].
  rewrite parse_links_eq, parse_articles_eq.
  split; [reflexivity | split; [reflexivity | split]].
  - apply complete_articles_length.
  - unfold len. induction 1 as [|t tags [Hh Hc] _ IH]; [reflexivity |].
    cbn [flat_map]. rewrite length_app. unfold complete_article at 1.
    destruct (h2_text t); [| now contradiction Hh].
    destruct (content_text t); [| now contradiction Hc].
    cbn [List.length]. lia.
Qed.

Lemma flat_map_nil {A B : Type} (f : A -> list B) (l : list A) :
  flat_map f l = [] <-> Forall (fun x => f x = []) l.
Proof.
  induction l as [|x l IH]; cbn [flat_map].
  - split; [constructor | reflexivity].
  - split.
    + intros H. apply app_eq_nil in H as [Hx Hl].
      constructor; [assumption | now apply IH].
    + intros H. inversion H as [|? ? Hx Hl]; subst.
      rewrite Hx. now apply IH.
Qed.

(** X19.  With the default [parse_page], a fetched page counts as a
    page without records exactly when the document has no anchor with an
    [href] and no [article] element with both an [h2] and a [div] of
    class [content]; otherwise it is a page with records.  The lookup of
    the two collections never raises. *)
Theorem default_parser_empty_page
  (self : crawler) (io : page_io) (n : Z) (u : string) (c : ascii)
  (t : string) (doc : document) :
  build_url self n = Returns u ->
  fst (fetch_page (max_retries self) (io_get io) u 0)
  = Returns (Some (String c t)) ->
  io_parse io = Returns (parse_page doc) ->
  (page_kind_of self io n = NoRecords
   <-> doc_anchors doc = []
       /\ Forall (fun a => h2_text a = None \/ content_text a = None)
                 (doc_articles doc))
  /\ (page_kind_of self io n = NoRecords
      \/ page_kind_of self io n = HasRecords).
Proof.
  intros Hu Hf Hp. unfold page_kind_of. rewrite Hu, Hf, Hp.
  cbn [not_html]. unfold parse_page. cbn [articles links].
  rewrite parse_links_eq, parse_articles_eq.
  assert (Hnil : flat_map complete_article (doc_articles doc) = []
                 <-> Forall (fun a => h2_text a = None \/ content_text a = None)
                            (doc_articles doc)).
  { rewrite flat_map_nil. split; intros H; induction H as [|a l Ha _ IH];
      constructor; try assumption.
    - unfold complete_article in Ha.
      destruct (h2_text a); [| now left].
      destruct (content_text a); [discriminate Ha | now right].
    - unfold complete_article.
      destruct Ha as [-> | ->]; [reflexivity |].
      destruct (h2_text a); reflexivity. }
  destruct (flat_map complete_article (doc_articles doc)) as [|a0 arts];
    destruct (doc_anchors doc) as [|l0 ls].
  - split; [| now left]. split; [intros _ | reflexivity].
    split; [reflexivity | now apply Hnil].
  - split; [| now right]. split; [intros H | intros [H _]]; discriminate H.
  - split; [| now right]. split; [intros H; discriminate H |].
    intros [_ H]. apply Hnil in H. discriminate H.
  - split; [| now right]. split; [intros H | intros [H _]]; discriminate H.
Qed.

Lemma default_parser_empty_page_witness :
  page_kind_of example_crawler sample_page 1 = HasRecords.
Proof.
  assert (Hu : build_url example_crawler 1 = Returns "https://x/p?page=1")
    by reflexivity.
  assert (Hf : fst (fetch_page (max_retries example_crawler)
                      (io_get sample_page) "https://x/p?page=1" 0)
               = Returns (Some (String "<" "html>"))) by reflexivity.
  assert (Hp : io_parse sample_page = Returns (parse_page sample_document))
    by reflexivity.
  destruct (default_parser_empty_page example_crawler sample_page 1
              "https://x/p?page=1" "<" "html>" sample_document Hu Hf Hp)
    as [Hiff [Hk | Hk]]; [| exact Hk].
  apply Hiff in Hk as [_ Hall]. inversion Hall as [|? ? [H | H] _]; discriminate H.
Defined.

(** X20.  With the default [parse_page] on every page, the two counters
    of a fresh crawler follow the buffer throughout: after any number of
    iterations [pages_crawled] is the number of buffered results and
    [total_data] the number of their records. *)
Theorem default_parser_stats
  (self : crawler) (max_empty_pages save_interval : Z) (start_page : Z)
  (ios : list page_io) :
  Forall default_parser ios ->
  let s := fst (crawl_loop self max_empty_pages save_interval ios
                  (initial_state fresh_stats start_page)) in
  pages_crawled (stats s) = len (all_data s)
  /\ total_data (stats s) = total_records (all_data s).
Proof.
  intros Hios. cbv zeta. apply stats_follow_buffer.
  induction Hios as [|io ios [doc Hdoc] _ IH]; constructor; [| exact IH].
  intros d Hd. rewrite Hdoc in Hd. inversion Hd; subst.
  split; discriminate.
Qed.

Lemma default_parser_stats_witness :
  pages_crawled
    (stats (fst (crawl_loop example_crawler 3 10 [sample_page; sample_page]
                   (initial_state fresh_stats 1))))
  = len (all_data (fst (crawl_loop example_crawler 3 10
                          [sample_page; sample_page]
                          (initial_state fresh_stats 1)))).
Proof.
  assert (Hios : Forall default_parser [sample_page; sample_page])
    by (repeat constructor; exists sample_document; reflexivity).
  pose proof (default_parser_stats example_crawler 3 10 1
                [sample_page; sample_page] Hios) as [Hp _].
  exact Hp.
Defined.

(** ** The default [has_next_page] *)

(** X21.  With the default [has_next_page], a run ends as
    [TERMINATED_LAST_PAGE] only on a document that has no next-page
    link, no link to [?page=(n+1)], and a [content] division whose
    stripped text is shorter than 10 characters; a document without that
    division never ends the run. *)
Theorem default_last_page
  (self : crawler) (max_empty_pages save_interval : Z)
  (io : page_io) (s : loop_state) (doc : document) :
  io_has_next io = Returns (has_next_page doc (page_num s)) ->
  snd (crawl_step self max_empty_pages save_interval io s)
  = TERMINATED_LAST_PAGE ->
  doc_next_link doc = false
  /\ doc_link_to doc ("?page=" ++ str (page_num s + 1)) = false
  /\ exists k, doc_content_length doc = Some k /\ k < 10.
Proof.
  intros Hnext Hlast.
  destruct (last_page_inversion _ _ _ _ _ Hlast) as [Hfalse _].
  assert (H : has_next_page doc (page_num s) = false) by congruence.
  clear Hfalse Hnext.
  unfold has_next_page in H.
  destruct (doc_next_link doc); [discriminate H |].
  destruct (doc_link_to doc ("?page=" ++ str (page_num s + 1)));
    [discriminate H |].
  destruct (doc_content_length doc) as [k|]; [| discriminate H].
  destruct (Z.ltb_spec k 10); [| discriminate H].
  split; [reflexivity | split; [reflexivity |]].
  exists k. split; [reflexivity | assumption].
Qed.

Lemma default_last_page_witness :
  exists k, doc_content_length sample_document = Some k /\ k < 10.
Proof.
  assert (Hn : io_has_next sample_page
               = Returns (has_next_page sample_document
                            (page_num (initial_state fresh_stats 1))))
    by reflexivity.
  assert (Hl : snd (crawl_step example_crawler 3 10 sample_page
                      (initial_state fresh_stats 1)) = TERMINATED_LAST_PAGE)
    by reflexivity.
  pose proof (default_last_page example_crawler 3 10 sample_page
                (initial_state fresh_stats 1) sample_document Hn Hl)
    as [_ [_ Hk]].
  exact Hk.
Defined.

(** ** Every [page=1] is rewritten *)

(** [replace] goes on after the first occurrence. *)
Lemma replace_page1_more (new x post : string) :
  has_char "=" x = false ->
  replace "page=1" new (x ++ "page=1" ++ post)
  = x ++ new ++ replace "page=1" new post.
Proof.
  unfold replace. intros Hx.
  induction x as [|c x IH].
  - cbn. reflexivity.
  - assert (Hin : startswith "page=1" (String c x ++ "page=1" ++ post) = false)
      by (apply startswith_page1_inside; [discriminate | assumption]).
    cbn [has_char] in Hx. apply orb_false_iff in Hx as [_ Hx].
    change (String c x ++ "page=1" ++ post)
      with (String c (x ++ "page=1" ++ post)) in *.
    cbn [replace_from]. rewrite Hin, IH by assumption. reflexivity.
Qed.

(** X22.  In a template without [{page}] the replacement is not limited
    to the [?page=] parameter: a later parameter whose text ends in
    [page=1] gets the page number too. *)
Theorem every_page_parameter_rewritten (c : crawler) (n : Z)
  (pre mid post : string) :
  base_url c = pre ++ "?page=1" ++ mid ++ "page=1" ++ post ->
  contains "{page}" (base_url c) = false ->
  has_char "=" pre = false ->
  has_char "=" mid = false ->
  contains "page=1" post = false ->
  build_url c n
  = Returns (pre ++ "?page=" ++ str n ++ mid ++ "page=" ++ str n ++ post).
Proof.
  intros E Hno Hpre Hmid Hpost.
  assert (Hq : contains "?page=" (base_url c) = true).
  { rewrite E.
    apply (contains_app "?page=" pre ("1" ++ mid ++ "page=1" ++ post)). }
  unfold build_url. rewrite Hno, Hq, E.
  replace (pre ++ "?page=1" ++ mid ++ "page=1" ++ post)
    with ((pre ++ "?") ++ "page=1" ++ mid ++ "page=1" ++ post)
    by (now rewrite append_assoc).
  rewrite replace_page1_more
    by (rewrite has_char_app, Hpre; reflexivity).
  rewrite replace_page1 by assumption.
  rewrite !append_assoc. reflexivity.
Qed.

Lemma every_page_parameter_rewritten_witness :
  build_url (mk_crawler "https://x/l?page=1&subpage=1" 3 no_format) 7
  = Returns "https://x/l?page=7&subpage=7".
Proof.
  assert (E : base_url (mk_crawler "https://x/l?page=1&subpage=1" 3 no_format)
              = "https://x/l" ++ "?page=1" ++ "&sub" ++ "page=1" ++ EmptyString)
    by reflexivity.
  assert (Hno : contains "{page}"
                  (base_url (mk_crawler "https://x/l?page=1&subpage=1" 3
                               no_format)) = false) by reflexivity.
  assert (Hpre : has_char "=" "https://x/l" = false) by reflexivity.
  assert (Hmid : has_char "=" "&sub" = false) by reflexivity.
  assert (Hpost : contains "page=1" EmptyString = false) by reflexivity.
  exact (every_page_parameter_rewritten
           (mk_crawler "https://x/l?page=1&subpage=1" 3 no_format) 7
           "https://x/l" "&sub" EmptyString E Hno Hpre Hmid Hpost).
Defined.

(** ** A site that does not answer *)

(** One iteration on a page none of whose requests succeeds. *)
Lemma site_down_step (self : crawler) (m si : Z) (io : page_io)
  (s : loop_state) (u : string) :
  build_url self (page_num s) = Returns u ->
  (forall k, io_get io k = GetRequestException) ->
  let r := crawl_step self m si io s in
  empty_pages_count (fst r) = empty_pages_count s + 1
  /\ stats (fst r) = stats s
  /\ all_data (fst r) = all_data s
  /\ saved_batches (trace (fst r)) = saved_batches (trace s)
  /\ requests (trace (fst r))
     = requests (trace s) + (Z.max 0 (max_retries self) + 1)
  /\ (empty_pages_count s + 1 >= m ->
      snd r = TERMINATED_NO_CONTENT /\ page_num (fst r) = page_num s)
  /\ (empty_pages_count s + 1 < m ->
      snd r = RUNNING /\ page_num (fst r) = page_num s + 1).
Proof.
  intros Hu Hdown. cbv zeta.
  pose proof (fetch_page_events (max_retries self) (io_get io) u 0) as Hev.
  destruct (fetch_page_exhausts (max_retries self) (io_get io) u 0)
    as [Hnone [Hretry _]]; [intros i _; apply Hdown |].
  destruct (fetch_page_budget_from (max_retries self) (io_get io) u 0)
    as [_ [Hreq _]]; [lia |].
  rewrite Hretry, Z.sub_0_r in Hreq.
  apply saved_batches_fetch in Hev.
  unfold_step. rewrite Hu. simp_step.
  destruct (fetch_page (max_retries self) (io_get io) u 0) as [r evs].
  cbn [fst snd] in *. subst r. break_step.
  all: rewrite ?saved_batches_app, ?requests_app, ?Hev, ?Hreq, ?app_nil_r;
    repeat split; try reflexivity; intros; lia.
Qed.

Lemma site_down_loop (self : crawler) (m si : Z) (k : nat) :
  (forall n, exists u, build_url self n = Returns u) ->
  forall (ios : list page_io) (s : loop_state),
    Forall (fun io => forall i, io_get io i = GetRequestException) ios ->
    (S k <= List.length ios)%nat ->
    empty_pages_count s + Z.of_nat (S k) = m ->
    let r := crawl_loop self m si ios s in
    snd r = TERMINATED_NO_CONTENT
    /\ page_num (fst r) = page_num s + Z.of_nat k
    /\ stats (fst r) = stats s
    /\ all_data (fst r) = all_data s
    /\ saved_batches (trace (fst r)) = saved_batches (trace s)
    /\ requests (trace (fst r))
       = requests (trace s)
         + Z.of_nat (S k) * (Z.max 0 (max_retries self) + 1).
Proof.
  intros Hurl. cbv zeta.
  induction k as [|k IH]; intros ios s Hios Hlen Hm;
    (destruct Hios as [|io ios Hio Hios]; [cbn in Hlen; lia |]);
    destruct (Hurl (page_num s)) as [u Hu];
    destruct (site_down_step self m si io s u Hu Hio)
      as [Hc [Hst [Hd [Hsv [Hrq [Hstop Hgo]]]]]];
    rewrite crawl_loop_cons.
  - destruct Hstop as [Hw Hp]; [lia |]. rewrite Hw.
    repeat split; try assumption; lia.
  - destruct Hgo as [Hw Hp]; [lia |]. rewrite Hw.
    destruct (IH ios (fst (crawl_step self m si io s)) Hios)
      as [IHw [IHp [IHst [IHd [IHsv IHrq]]]]];
      [cbn [List.length] in Hlen; lia | lia |].
    repeat split; try congruence; lia.
Qed.

(** X23.  When no request of any page succeeds (and the template
    resolves), a run with [max_empty_pages >= 1] ends by itself: it
    works on exactly [max_empty_pages] pages, sending
    [max(0, max_retries) + 1] requests for each, and stops in
    [TERMINATED_NO_CONTENT] on the last of them with nothing buffered,
    the statistics untouched and no file written. *)
Theorem site_down_terminates
  (self : crawler) (max_empty_pages save_interval : Z) (st : stats_t)
  (start_page : Z) (ios : list page_io) :
  1 <= max_empty_pages ->
  (forall n, exists u, build_url self n = Returns u) ->
  Forall (fun io => forall i, io_get io i = GetRequestException) ios ->
  max_empty_pages <= len ios ->
  exists s,
    crawl self max_empty_pages save_interval st start_page ios
    = Some (s, TERMINATED_NO_CONTENT)
    /\ page_num s = start_page + max_empty_pages - 1
    /\ stats s = st
    /\ all_data s = []
    /\ saved_batches (trace s) = []
    /\ requests (trace s)
       = max_empty_pages * (Z.max 0 (max_retries self) + 1).
Proof.
  intros Hm Hurl Hios Hlen.
  destruct (site_down_loop self max_empty_pages save_interval
              (Z.to_nat (max_empty_pages - 1)) Hurl ios
              (initial_state st start_page) Hios)
    as [Hw [Hp [Hst [Hd [Hsv Hrq]]]]];
    [unfold len in Hlen; lia | cbn [empty_pages_count initial_state]; lia |].
  unfold crawl.
  destruct (crawl_loop self max_empty_pages save_interval ios
              (initial_state st start_page)) as [s why].
  cbn [fst snd] in *. subst why.
  exists (final_save s). split; [reflexivity |].
  unfold final_save. rewrite Hd. cbn [is_nil initial_state all_data].
  cbn [initial_state page_num stats trace saved_batches] in *.
  replace (Z.of_nat (S (Z.to_nat (max_empty_pages - 1))))
    with max_empty_pages in Hrq by lia.
  repeat split; try assumption; lia.
Qed.

Lemma site_down_terminates_witness :
  exists s,
    crawl example_crawler 2 10 fresh_stats 5 [failed_page; failed_page]
    = Some (s, TERMINATED_NO_CONTENT)
    /\ page_num s = 5 + 2 - 1
    /\ requests (trace s) = 2 * (Z.max 0 3 + 1).
Proof.
  assert (Hm : 1 <= 2) by lia.
  assert (Hurl : forall n, exists u, build_url example_crawler n = Returns u)
    by (intros n; eexists; reflexivity).
  assert (Hios : Forall (fun io => forall i, io_get io i = GetRequestException)
                   [failed_page; failed_page])
    by (repeat constructor).
  assert (Hlen : 2 <= len [failed_page; failed_page]) by (cbn; lia).
  destruct (site_down_terminates example_crawler 2 10 fresh_stats 5
              [failed_page; failed_page] Hm Hurl Hios Hlen)
    as [s [Hrun [Hp [_ [_ [_ Hrq]]]]]].
  exists s. split; [exact Hrun | split; [exact Hp | exact Hrq]].
Defined.
